(** * ManageTemplateReposCmd: the template-repository panel of codewind-vscode

    A shallow embedding of [dev/src/command/connection/ManageTemplateReposCmd.ts]:
    the module-level singleton panel, [refreshPage], the webview message
    handler, the two-step prompt for a new repository and the URL validator
    of that prompt.

    JavaScript strings are modelled as [string], read as sequences of 8-bit
    code units.  Asynchronous functions are modelled with every [await]
    running to completion before the host delivers another event (the host
    delivers events serially). *)

From Stdlib Require Import Ascii String NArith DecimalString.
From stdpp Require Import base option list gmap strings.

Local Open Scope string_scope.

(** ** JavaScript string primitives used by the module *)

Module Js.

Definition code (c : ascii) : nat := nat_of_ascii c.

(** [String.prototype.startsWith] *)
Definition startsWith (s p : string) : bool := String.prefix p s.

(** [String.prototype.includes] *)
Fixpoint includes (s sub : string) : bool :=
  String.prefix sub s ||
  match s with
  | EmptyString => false
  | String _ s' => includes s' sub
  end.

(** White space and line terminators of [String.prototype.trim], in the
    8-bit range: TAB, LF, VT, FF, CR, SPACE and NBSP. *)
Definition isWhiteSpace (c : ascii) : bool :=
  let n := code c in
  (Nat.leb 9 n && Nat.leb n 13) || Nat.eqb n 32 || Nat.eqb n 160.

Fixpoint trimStart (s : string) : string :=
  match s with
  | EmptyString => EmptyString
  | String c s' => if isWhiteSpace c then trimStart s' else s
  end.

(** [trimEnd] keeps a character when it is not white space or when
    something is left after it. *)
Fixpoint trimEnd (s : string) : string :=
  match s with
  | EmptyString => EmptyString
  | String c s' =>
      match trimEnd s' with
      | EmptyString => if isWhiteSpace c then EmptyString else String c EmptyString
      | r => String c r
      end
  end.

(** [String.prototype.trim] *)
Definition trim (s : string) : string := trimEnd (trimStart s).

Definition allWhite (s : string) : bool :=
  forallb isWhiteSpace (list_ascii_of_string s).

Definition firstChar (s : string) : option ascii :=
  match s with
  | EmptyString => None
  | String c _ => Some c
  end.

Fixpoint lastChar (s : string) : option ascii :=
  match s with
  | EmptyString => None
  | String c EmptyString => Some c
  | String _ s' => lastChar s'
  end.

Definition notWhite (c : option ascii) : bool :=
  match c with
  | None => true
  | Some c => negb (isWhiteSpace c)
  end.

(** No white space at either end. *)
Definition isTrimmed (s : string) : bool :=
  notWhite (firstChar s) && notWhite (lastChar s).

(** Truthiness of a [string | undefined] value: [undefined] and the empty
    string are falsy. *)
Definition truthy (v : option string) : bool :=
  match v with
  | None => false
  | Some EmptyString => false
  | Some _ => true
  end.

(** [String.prototype.replace] with a global pattern that is a literal
    text: every occurrence, left to right, not overlapping.  [skip]
    counts the characters of a match still to be passed over. *)
Fixpoint replaceFrom (s pat by_ : string) (skip : nat) : string :=
  match s with
  | EmptyString => EmptyString
  | String c s' =>
      match skip with
      | S k => replaceFrom s' pat by_ k
      | O =>
          if String.prefix pat s
          then by_ ++ replaceFrom s' pat by_ (String.length pat - 1)
          else String c (replaceFrom s' pat by_ 0)
      end
  end.

Definition replaceAll (s pat by_ : string) : string :=
  match pat with
  | EmptyString => s
  | _ => replaceFrom s pat by_ 0
  end.

End Js.

(** ** The [URL] class of Node's [url] module

    [validateRepoInput] reads three properties of the parsed URL. *)

Record URL : Type := mkURL {
  protocol : string;   (* the scheme followed by ":" *)
  host : string;       (* host name, then ":" and the port when it is not the default one *)
  pathname : string
}.

(** A model of [new URL(input)] (no base): the WHATWG basic URL parser, for
    the three properties above.  [None] is the [TypeError] of the
    constructor.  Not modelled: IDNA and percent-decoding of domains (a
    special-scheme host with [%] or a non-ASCII unit is given as a failure),
    IPv4 number forms and IPv6 literals, percent-encoding of path and
    opaque-host characters (it neither adds nor removes a letter), and the
    drive-letter rules of [file:]. *)
Module UrlParser.

Local Open Scope char_scope.

Definition isC0OrSpace (c : ascii) : bool := Nat.leb (Js.code c) 32.
Definition isTabOrNewline (c : ascii) : bool :=
  let n := Js.code c in Nat.eqb n 9 || Nat.eqb n 10 || Nat.eqb n 13.
Definition isUpper (c : ascii) : bool := Nat.leb 65 (Js.code c) && Nat.leb (Js.code c) 90.
Definition isLower (c : ascii) : bool := Nat.leb 97 (Js.code c) && Nat.leb (Js.code c) 122.
Definition isAlpha (c : ascii) : bool := isUpper c || isLower c.
Definition isDigit (c : ascii) : bool := Nat.leb 48 (Js.code c) && Nat.leb (Js.code c) 57.
Definition lower (c : ascii) : ascii :=
  if isUpper c then ascii_of_nat (Js.code c + 32) else c.
Definition isSchemeChar (c : ascii) : bool :=
  isAlpha c || isDigit c || Ascii.eqb c "+" || Ascii.eqb c "-" || Ascii.eqb c ".".

Fixpoint dropWhile (p : ascii -> bool) (l : list ascii) : list ascii :=
  match l with
  | [] => []
  | c :: r => if p c then dropWhile p r else l
  end.

(** The longest prefix on which [p] fails, and the rest. *)
Fixpoint break (p : ascii -> bool) (l : list ascii) : list ascii * list ascii :=
  match l with
  | [] => ([], [])
  | c :: r => if p c then ([], l) else let '(a, b) := break p r in (c :: a, b)
  end.

Definition clean (l : list ascii) : list ascii :=
  let stripped := rev (dropWhile isC0OrSpace (rev (dropWhile isC0OrSpace l))) in
  List.filter (fun c => negb (isTabOrNewline c)) stripped.

(** Scheme start state and scheme state. *)
Fixpoint schemeState (l acc : list ascii) : option (list ascii * list ascii) :=
  match l with
  | [] => None
  | c :: r =>
      if Ascii.eqb c ":" then Some (rev acc, r)
      else if isSchemeChar c then schemeState r (lower c :: acc)
      else None
  end.

Definition schemeStart (l : list ascii) : option (list ascii * list ascii) :=
  match l with
  | c :: r => if isAlpha c then schemeState r [lower c] else None
  | [] => None
  end.

Definition str (l : list ascii) : string := string_of_list_ascii l.

Definition isSpecial (scheme : string) : bool :=
  String.eqb scheme "http" || String.eqb scheme "https" || String.eqb scheme "ftp"
  || String.eqb scheme "ws" || String.eqb scheme "wss" || String.eqb scheme "file".

Definition defaultPort (scheme : string) : option N :=
  if String.eqb scheme "http" then Some 80%N
  else if String.eqb scheme "https" then Some 443%N
  else if String.eqb scheme "ftp" then Some 21%N
  else if String.eqb scheme "ws" then Some 80%N
  else if String.eqb scheme "wss" then Some 443%N
  else None.

Definition isSlash (special : bool) (c : ascii) : bool :=
  Ascii.eqb c "/" || (special && Ascii.eqb c "\").

(** End of the authority: [/], [?], [#], and [\] in a special URL. *)
Definition endsAuthority (special : bool) (c : ascii) : bool :=
  isSlash special c || Ascii.eqb c "?" || Ascii.eqb c "#".

Definition endsPath (c : ascii) : bool := Ascii.eqb c "?" || Ascii.eqb c "#".

Definition forbiddenHost (c : ascii) : bool :=
  let n := Js.code c in
  Nat.eqb n 0 || Nat.eqb n 9 || Nat.eqb n 10 || Nat.eqb n 13 || Nat.eqb n 32
  || Ascii.eqb c "#" || Ascii.eqb c "/" || Ascii.eqb c ":" || Ascii.eqb c "<"
  || Ascii.eqb c ">" || Ascii.eqb c "?" || Ascii.eqb c "@" || Ascii.eqb c "["
  || Ascii.eqb c "\" || Ascii.eqb c "]" || Ascii.eqb c "^" || Ascii.eqb c "|".

Definition forbiddenDomain (c : ascii) : bool :=
  forbiddenHost c || Nat.leb (Js.code c) 31 || Ascii.eqb c "%" || Nat.leb 127 (Js.code c).

(** Host parser: a domain for a special scheme, an opaque host otherwise. *)
Definition hostParse (special : bool) (h : list ascii) : option (list ascii) :=
  if special then
    if existsb forbiddenDomain h then None else Some (map lower h)
  else
    if existsb forbiddenHost h then None else Some h.

(** The part of the authority after the last [@]; [None] when there is no [@]. *)
Fixpoint afterLastAt (l : list ascii) : option (list ascii) :=
  match l with
  | [] => None
  | c :: r =>
      match afterLastAt r with
      | Some t => Some t
      | None => if Ascii.eqb c "@" then Some r else None
      end
  end.

Fixpoint digitsValue (l : list ascii) (acc : N) : N :=
  match l with
  | [] => acc
  | c :: r => digitsValue r (acc * 10 + N.of_nat (Js.code c - 48))%N
  end.

(** Port state: digits only, at most 65535, the default port is dropped. *)
Definition portParse (scheme : string) (p : list ascii) : option (option N) :=
  if forallb isDigit p then
    match p with
    | [] => Some None
    | _ =>
        let n := digitsValue p 0%N in
        if (65535 <? n)%N then None
        else if decide (defaultPort scheme = Some n) then Some None
        else Some (Some n)
    end
  else None.

Definition showPort (n : N) : list ascii :=
  list_ascii_of_string (NilZero.string_of_uint (N.to_uint n)).

(** Authority state, host state and port state; the result is the [host]
    property. *)
Definition authorityParse (scheme : string) (special allowEmpty : bool) (auth : list ascii)
  : option (list ascii) :=
  let hostport :=
    match afterLastAt auth with
    | Some t => match t with [] => None | _ => Some t end
    | None => Some auth
    end in
  match hostport with
  | None => None
  | Some hp =>
      let '(h, rest) := break (fun c => Ascii.eqb c ":") hp in
      match rest with
      | [] =>
          match h with
          | [] => if special && negb allowEmpty then None else Some []
          | _ => hostParse special h
          end
      | _ :: p =>
          match h with
          | [] => None
          | _ =>
              match hostParse special h, portParse scheme p with
              | Some h', Some None => Some h'
              | Some h', Some (Some n) => Some (h' ++ ":" :: showPort n)%list
              | _, _ => None
              end
          end
      end
  end.

Definition lowerStr (l : list ascii) : string := str (map lower l).

Definition isSingleDot (seg : list ascii) : bool :=
  let s := lowerStr seg in String.eqb s "." || String.eqb s "%2e".

Definition isDoubleDot (seg : list ascii) : bool :=
  let s := lowerStr seg in
  String.eqb s ".." || String.eqb s ".%2e" || String.eqb s "%2e." || String.eqb s "%2e%2e".

(** Path state.  [buf] is the segment being read (reversed), [segs] the
    path so far (last segment first). *)
Fixpoint pathState (special : bool) (l buf : list ascii) (segs : list (list ascii))
  : list (list ascii) :=
  let close (atSlash : bool) :=
    let seg := rev buf in
    if isDoubleDot seg then
      let popped := tail segs in
      if atSlash then popped else [] :: popped
    else if isSingleDot seg then
      if atSlash then segs else [] :: segs
    else seg :: segs in
  match l with
  | [] => close false
  | c :: r =>
      if endsPath c then close false
      else if isSlash special c then pathState special r [] (close true)
      else pathState special r (c :: buf) segs
  end.

Definition showPath (segs : list (list ascii)) : list ascii :=
  concat (map (fun seg => "/" :: seg) (rev segs)).

(** Path start state. *)
Definition pathStart (special : bool) (l : list ascii) : list ascii :=
  match l with
  | [] => if special then showPath (pathState special [] [] []) else []
  | c :: r =>
      if endsPath c then
        if special then showPath (pathState special [] [] []) else []
      else if isSlash special c then showPath (pathState special r [] [])
      else showPath (pathState special l [] [])
  end.

Definition withAuthority (scheme : string) (special allowEmpty : bool) (l : list ascii)
  : option URL :=
  let '(auth, rest) := break (endsAuthority special) l in
  match authorityParse scheme special allowEmpty auth with
  | None => None
  | Some h => Some (mkURL (scheme ++ ":") (str h) (str (pathStart special rest)))
  end.

Definition parse (input : string) : option URL :=
  match schemeStart (clean (list_ascii_of_string input)) with
  | None => None
  | Some (sch, rest) =>
      let scheme := str sch in
      if String.eqb scheme "file" then
        match rest with
        | a :: b :: rest' =>
            if isSlash true a && isSlash true b
            then withAuthority scheme true true rest'
            else Some (mkURL "file:" "" (str (pathStart true rest)))
        | _ => Some (mkURL "file:" "" (str (pathStart true rest)))
        end
      else if isSpecial scheme then
        (* special authority slashes, special authority ignore slashes *)
        withAuthority scheme true false (dropWhile (isSlash true) rest)
      else
        match rest with
        | a :: rest' =>
            if Ascii.eqb a "/" then
              match rest' with
              | b :: rest'' =>
                  if Ascii.eqb b "/"
                  then withAuthority scheme false true rest''       (* authority state *)
                  else Some (mkURL (scheme ++ ":") "" (str (showPath (pathState false rest' [] []))))
              | [] => Some (mkURL (scheme ++ ":") "" "/")
              end
            else
              (* opaque path *)
              Some (mkURL (scheme ++ ":") "" (str (fst (break endsPath rest))))
        | [] => Some (mkURL (scheme ++ ":") "" "")
        end
  end.

End UrlParser.

(** ** The input validator *)

Section Validator.

(** The constructor [new URL(input)]; [None] when it throws. *)
Variable newURL : string -> option URL.

Definition getRawLinkMsg (provider : string) : string :=
  "For " ++ provider ++ " URLs, you must use the raw link.".

Definition validateRepoInput (input : string) : option string :=
  let asUrl := newURL input in
  match asUrl with
  | None => Some "The repository URL must be a valid http(s) URL."
  | Some u =>
      if negb (Js.truthy (Some (host u))) || negb (Js.startsWith (protocol u) "http") then
        Some "The repository URL must be a valid http(s) URL."
      else if Js.includes (host u) "github" && negb (Js.includes (host u) "raw") then
        Some (getRawLinkMsg "GitHub")
      else if Js.includes (host u) "bitbucket" && negb (Js.includes (pathname u) "raw") then
        Some (getRawLinkMsg "Bitbucket")
      else if Js.includes (host u) "gitlab" && negb (Js.includes (pathname u) "raw") then
        Some (getRawLinkMsg "GitLab")
      else None
  end.

End Validator.

(** ** Data of the module *)

Module Connection.
(** The one property of [Connection] the module reads. *)
Record t : Type := mk { url : string }.
End Connection.

(** Template repository data as provided by the backend. *)
Module IRawTemplateRepo.
Record t : Type := mk {
  url : string;
  name : string;
  description : string;
  enabled : bool;
  protected : bool
}.
End IRawTemplateRepo.

Module ManageReposWVMessages.
Definition ADD_NEW : string := "add-new".
Definition DELETE : string := "delete".
Definition HELP : string := "help".
Definition REFRESH : string := "refresh".
Definition ENABLE_DISABLE : string := "enableOrDisable".
(** The members of the enumeration. *)
Definition values : list string := [ADD_NEW; DELETE; HELP; REFRESH; ENABLE_DISABLE].
End ManageReposWVMessages.

(** [data] field of the ENABLE_DISABLE event. *)
Record RepoEnablement : Type := mkRepoEnablement { repoID : string; enable : bool }.
Record IRepoEnablementEvent : Type := mkEnablementEvent { repos : list RepoEnablement }.

(** The values the [data] field of a webview message takes.  The casts
    [msg.data as ...] of the handler do not check anything, so the handler
    passes the value on as it is. *)
Inductive JsValue : Type :=
| Undefined
| Str (s : string)
| Enablement (e : IRepoEnablementEvent).

(** The conversion to a string done by a template literal. *)
Definition toStr (v : JsValue) : string :=
  match v with
  | Undefined => "undefined"
  | Str s => s
  | Enablement _ => "[object Object]"
  end.

Module WebviewUtil.
Record IWVMessage : Type := mkMsg { type : string; data : JsValue }.
End WebviewUtil.
Import WebviewUtil.

Definition REPOS_PAGE_TITLE : string := "Template Repositories".

(** A thrown value. *)
Inductive JsError : Type := Error (message : string).

Inductive Result (A : Type) : Type :=
| Ok (a : A)
| Throw (e : JsError).
Arguments Ok {A} a.
Arguments Throw {A} e.

(** ** What the module does to its environment *)

Inductive LogLevel : Type := LevelE | LevelI | LevelD.

Inductive LogArg : Type :=
| ArgMsg (m : IWVMessage)
| ArgValue (v : JsValue)
| ArgErr (e : JsError).

(** Calls of the Repository Client ([Requester]). *)
Inductive BackendCall : Type :=
| EnableTemplateRepos (c : Connection.t) (enablement : JsValue)
| AddTemplateRepo (c : Connection.t) (repoUrl description : string)
| RemoveTemplateRepo (c : Connection.t) (repoUrl : JsValue)
| Get (endpoint : string).

Inductive Effect : Type :=
| Log (level : LogLevel) (text : string) (args : list LogArg)
| ShowErrorMessage (text : string) (e : JsError)
| ShowInformationMessage (text : string)
| InputBox (prompt : string) (answer : option string)
| Reveal (panel : nat)
| Request (call : BackendCall) (succeeded : bool)
| WriteFile (path content : string)
| UnhandledRejection (e : JsError).

Definition isFailedRequest (e : Effect) : bool :=
  match e with Request _ false => true | _ => false end.

Definition isRequest (e : Effect) : bool :=
  match e with Request _ _ => true | _ => false end.

(** A report of a failure: an error log entry or an error notification. *)
Definition isReport (e : Effect) : bool :=
  match e with
  | Log LevelE _ _ => true
  | ShowErrorMessage _ _ => true
  | _ => false
  end.

(** The listener the command registers with [onDidDispose]. *)
Inductive DisposeListener : Type := ClearManageReposPage.

(** A webview panel of the host. *)
Record WebviewPanel : Type := mkPanel {
  viewType : string;
  title : string;
  iconPath : option (string * string);        (* light, dark *)
  html : string;
  onDidDispose : list DisposeListener;
  onDidReceiveMessage : list Connection.t     (* handleWebviewMessage.bind(connection) *)
}.

Definition setIcon (i : string * string) (p : WebviewPanel) : WebviewPanel :=
  mkPanel (viewType p) (title p) (Some i) (html p) (onDidDispose p) (onDidReceiveMessage p).
Definition setHtml (h : string) (p : WebviewPanel) : WebviewPanel :=
  mkPanel (viewType p) (title p) (iconPath p) h (onDidDispose p) (onDidReceiveMessage p).
Definition addDisposeListener (l : DisposeListener) (p : WebviewPanel) : WebviewPanel :=
  mkPanel (viewType p) (title p) (iconPath p) (html p) (onDidDispose p ++ [l]) (onDidReceiveMessage p).
Definition addMessageListener (c : Connection.t) (p : WebviewPanel) : WebviewPanel :=
  mkPanel (viewType p) (title p) (iconPath p) (html p) (onDidDispose p) (onDidReceiveMessage p ++ [c]).

(** The input box of the host: an answer the validator rejects leaves the box
    open, and the user answers again; [None] is the user dismissing the box,
    which the user also does when no answer is left. *)
Fixpoint inputBox (validateInput : option (string -> option string))
    (answers : list (option string)) : option string * list (option string) :=
  match answers with
  | [] => (None, [])
  | None :: rest => (None, rest)
  | Some s :: rest =>
      match validateInput with
      | None => (Some s, rest)
      | Some v => if Js.truthy (v s) then inputBox validateInput rest else (Some s, rest)
      end
  end.

(** ** The environment of the module

    What the module imports from the rest of the extension and from Node:
    the Repository Client [Requester] with the state of the backend behind
    it, the view renderer, and constants. *)

Class Env : Type := {
  (** The state of the backend behind [Requester]. *)
  Backend : Type;
  (** [Requester]: every call may change the backend and may reject. *)
  Requester_enableTemplateRepos : Connection.t -> JsValue -> Backend -> Result unit * Backend;
  Requester_addTemplateRepo : Connection.t -> string -> string -> Backend -> Result unit * Backend;
  Requester_removeTemplateRepo : Connection.t -> JsValue -> Backend -> Result unit * Backend;
  Requester_get : string -> Backend -> Result (list IRawTemplateRepo.t) * Backend;
  (** [EndpointUtil.resolveMCEndpoint(connection, MCEndpoints.TEMPLATE_REPOS)] *)
  resolveTemplateReposEndpoint : Connection.t -> string;
  (** The view renderer of [ManageTemplateReposPage]. *)
  generateManageReposHtml : list IRawTemplateRepo.t -> string;
  MCUtil_errToString : JsError -> string;
  (** [Resources.getIconPaths(Resources.Icons.Logo)]: light and dark. *)
  logoIconPaths : string * string;
  (** [process.env[Constants.CW_ENV_VAR] === Constants.CW_ENV_DEV] *)
  cwEnvDev : bool;
  (** The constructor of [URL]; [None] when it throws. *)
  newURL : string -> option URL
}.

(** ** The controller *)

Section Controller.

Context {env : Env}.

Record World : Type := mkWorld {
  manageReposPage : option nat;          (* the module-level [let], a panel handle *)
  panels : gmap nat WebviewPanel;        (* the panels of the host that are not disposed *)
  nextPanel : nat;                       (* the handle of the next panel the host creates *)
  backend : Backend;
  answers : list (option string);        (* what the user will answer to input boxes *)
  trace : list Effect                    (* what has been done so far, oldest first *)
}.

Definition withPage (v : option nat) (w : World) : World :=
  mkWorld v (panels w) (nextPanel w) (backend w) (answers w) (trace w).
Definition withPanels (ps : gmap nat WebviewPanel) (w : World) : World :=
  mkWorld (manageReposPage w) ps (nextPanel w) (backend w) (answers w) (trace w).
Definition withBackend (b : Backend) (w : World) : World :=
  mkWorld (manageReposPage w) (panels w) (nextPanel w) b (answers w) (trace w).
Definition withAnswers (a : list (option string)) (w : World) : World :=
  mkWorld (manageReposPage w) (panels w) (nextPanel w) (backend w) a (trace w).
Definition emitted (es : list Effect) (w : World) : World :=
  mkWorld (manageReposPage w) (panels w) (nextPanel w) (backend w) (answers w) (trace w ++ es).

(** An asynchronous computation: it changes the world and returns or throws. *)
Definition Async (A : Type) : Type := World -> Result A * World.

Definition ret {A} (a : A) : Async A := fun w => (Ok a, w).
Definition throw {A} (e : JsError) : Async A := fun w => (Throw e, w).
Definition bind {A B} (m : Async A) (k : A -> Async B) : Async B :=
  fun w =>
    match m w with
    | (Ok a, w') => k a w'
    | (Throw e, w') => (Throw e, w')
    end.
(** [try { m } catch (err) { h err }] *)
Definition tryCatch {A} (m : Async A) (h : JsError -> Async A) : Async A :=
  fun w =>
    match m w with
    | (Ok a, w') => (Ok a, w')
    | (Throw e, w') => h e w'
    end.

Local Notation "x <- m ;; k" := (bind m (fun x => k))
  (at level 100, m at next level, right associativity).
Local Notation "m ;;; k" := (bind m (fun _ => k))
  (at level 100, right associativity).

Definition emit (e : Effect) : Async unit := fun w => (Ok tt, emitted [e] w).
Definition Log_e (text : string) (args : list LogArg) : Async unit := emit (Log LevelE text args).
Definition Log_i (text : string) (args : list LogArg) : Async unit := emit (Log LevelI text args).
Definition Log_d (text : string) (args : list LogArg) : Async unit := emit (Log LevelD text args).
Definition showErrorMessage (text : string) (e : JsError) : Async unit :=
  emit (ShowErrorMessage text e).
Definition showInformationMessage (text : string) : Async unit :=
  emit (ShowInformationMessage text).

Definition readPage : Async (option nat) := fun w => (Ok (manageReposPage w), w).
Definition writePage (v : option nat) : Async unit := fun w => (Ok tt, withPage v w).

(** A call of the Repository Client, with its outcome put on record. *)
Definition request {A} (call : BackendCall) (op : Backend -> Result A * Backend) : Async A :=
  fun w =>
    match op (backend w) with
    | (Ok a, b) => (Ok a, emitted [Request call true] (withBackend b w))
    | (Throw e, b) => (Throw e, emitted [Request call false] (withBackend b w))
    end.

Definition enableTemplateRepos (c : Connection.t) (enablement : JsValue) : Async unit :=
  request (EnableTemplateRepos c enablement) (Requester_enableTemplateRepos c enablement).
Definition addTemplateRepo (c : Connection.t) (repoUrl description : string) : Async unit :=
  request (AddTemplateRepo c repoUrl description) (Requester_addTemplateRepo c repoUrl description).
Definition removeTemplateRepo (c : Connection.t) (repoUrl : JsValue) : Async unit :=
  request (RemoveTemplateRepo c repoUrl) (Requester_removeTemplateRepo c repoUrl).
Definition get (endpoint : string) : Async (list IRawTemplateRepo.t) :=
  request (Get endpoint) (Requester_get endpoint).

(** [vscode.window.createWebviewPanel] *)
Definition createWebviewPanel (viewType title : string) : Async nat :=
  fun w =>
    let p := nextPanel w in
    (Ok p, mkWorld (manageReposPage w)
                   (<[p := mkPanel viewType title None "" [] []]> (panels w))
                   (S p) (backend w) (answers w) (trace w)).

(** A method or setter of a panel; the host throws when the panel is disposed. *)
Definition onPanel (p : nat) (f : WebviewPanel -> WebviewPanel) (es : list Effect) : Async unit :=
  fun w =>
    match panels w !! p with
    | Some panel => (Ok tt, emitted es (withPanels (<[p := f panel]> (panels w)) w))
    | None => (Throw (Error "Webview is disposed"), w)
    end.

Definition reveal (p : nat) : Async unit := onPanel p (fun x => x) [Reveal p].

(** [vscode.window.showInputBox] *)
Definition showInputBox (prompt : string) (validateInput : option (string -> option string))
  : Async (option string) :=
  fun w =>
    let '(answer, rest) := inputBox validateInput (answers w) in
    (Ok answer, emitted [InputBox prompt answer] (withAnswers rest w)).

(** A call of an [async] function that is not awaited: a rejection is left
    unhandled. *)
Definition notAwaited (m : Async unit) : Async unit :=
  tryCatch m (fun e => emit (UnhandledRejection e)).

Definition fetchRepositoryList (connection : Connection.t) : Async (list IRawTemplateRepo.t) :=
  get (resolveTemplateReposEndpoint connection).

Definition refreshPage (connection : Connection.t) : Async unit :=
  page <- readPage ;;
  match page with
  | None =>
      Log_e "Refreshing manage repos page but it doesn't exist" [] ;;;
      ret tt
  | Some _ =>
      list <- fetchRepositoryList connection ;;
      let html := generateManageReposHtml list in
      (if cwEnvDev then
         let htmlWithFileProto := Js.replaceAll html "vscode-resource:/" "file:///" in
         emit (WriteFile "/Users/tim/Desktop/manage.html" htmlWithFileProto)
       else ret tt) ;;;
      page' <- readPage ;;
      match page' with
      | None => throw (Error "Cannot read property 'webview' of undefined")
      | Some p => onPanel p (setHtml html) []
      end
  end.

Definition promptForNewRepo : Async (option (string * string)) :=
  repoUrl <- showInputBox "Enter the URL to your template repository's index file."
                          (Some (validateRepoInput newURL)) ;;
  match repoUrl with
  | None => ret None
  | Some EmptyString => ret None
  | Some repoUrl =>
      let repoUrl := Js.trim repoUrl in
      description <- showInputBox "Enter a description for this template repository" None ;;
      let description :=
        match description with
        | None => "(No description)"
        | Some EmptyString => "(No description)"
        | Some d => d
        end in
      let description := Js.trim description in
      ret (Some (repoUrl, description))
  end.

(** The [switch] on [msg.type] inside the [try] of the handler; [connection]
    is the [this] the handler is bound to. *)
Definition handleWebviewMessage (connection : Connection.t) (msg : IWVMessage) : Async unit :=
  tryCatch
    (if String.eqb (type msg) ManageReposWVMessages.ENABLE_DISABLE then
       let enablement := data msg in
       Log_i "Enable/Disable repos:" [ArgValue enablement] ;;;
       tryCatch
         (enableTemplateRepos connection enablement)
         (fun err => refreshPage connection)
     else if String.eqb (type msg) ManageReposWVMessages.ADD_NEW then
       Log_d ("Adding new repo to " ++ Connection.url connection) [] ;;;
       repoInfo <- promptForNewRepo ;;
       match repoInfo with
       | None => ret tt
       | Some (repoUrl, description) =>
           tryCatch
             (addTemplateRepo connection repoUrl description ;;;
              refreshPage connection)
             (fun err =>
                showErrorMessage
                  ("Error adding new template repository: " ++ MCUtil_errToString err) err ;;;
                Log_e "Error adding new template repo [object Object]" [ArgErr err])
       end
     else if String.eqb (type msg) ManageReposWVMessages.DELETE then
       let repoUrl := data msg in
       Log_d ("Delete repo " ++ toStr repoUrl ++ " from " ++ Connection.url connection) [] ;;;
       tryCatch
         (removeTemplateRepo connection repoUrl ;;;
          refreshPage connection)
         (fun err =>
            showErrorMessage
              ("Error deleting template repository " ++ toStr repoUrl ++ ": "
                 ++ MCUtil_errToString err) err ;;;
            Log_e ("Error removing template repo " ++ toStr repoUrl) [ArgErr err])
     else if String.eqb (type msg) ManageReposWVMessages.HELP then
       showInformationMessage "More information about this page, or open a webpage, probably"
     else if String.eqb (type msg) ManageReposWVMessages.REFRESH then
       refreshPage connection
     else
       Log_e "Received unknown event from manage templates webview:" [ArgMsg msg])
    (fun err =>
       Log_e "Error processing message from manage templates webview" [ArgErr err] ;;;
       Log_e "Message was" [ArgMsg msg]).

Definition manageTemplateReposCmd (connection : Connection.t) : Async unit :=
  page <- readPage ;;
  match page with
  | Some p =>
      (* Show existing page *)
      reveal p
  | None =>
      let title := REPOS_PAGE_TITLE in
      p <- createWebviewPanel title title ;;
      writePage (Some p) ;;;
      reveal p ;;;
      onPanel p (addDisposeListener ClearManageReposPage) [] ;;;
      onPanel p (setIcon logoIconPaths) [] ;;;
      notAwaited (refreshPage connection) ;;;          (* no [await] in the source *)
      onPanel p (addMessageListener connection) []
  end.

(** *** The host

    The host runs the command, disposes a panel the user closes (and tells
    the listeners of [onDidDispose]), and delivers the messages a webview
    posts to the listeners of [onDidReceiveMessage]; one event at a time. *)
Inductive HostEvent : Type :=
| RunCommand (connection : Connection.t)
| ClosePanel (p : nat)
| PostMessage (p : nat) (msg : IWVMessage).

Definition runListener (l : DisposeListener) : Async unit :=
  match l with
  | ClearManageReposPage => writePage None
  end.

Fixpoint forEach {A} (f : A -> Async unit) (l : list A) : Async unit :=
  match l with
  | [] => ret tt
  | a :: r => notAwaited (f a) ;;; forEach f r
  end.

Definition deliver (ev : HostEvent) (w : World) : World :=
  match ev with
  | RunCommand connection => snd (notAwaited (manageTemplateReposCmd connection) w)
  | ClosePanel p =>
      match panels w !! p with
      | None => w
      | Some panel =>
          snd (forEach runListener (onDidDispose panel) (withPanels (delete p (panels w)) w))
      end
  | PostMessage p msg =>
      match panels w !! p with
      | None => w
      | Some panel =>
          snd (forEach (fun c => handleWebviewMessage c msg) (onDidReceiveMessage panel) w)
      end
  end.

Definition run (evs : list HostEvent) (w : World) : World :=
  fold_left (fun w ev => deliver ev w) evs w.

(** The extension host before the command is first run. *)
Definition initial (b : Backend) (user : list (option string)) : World :=
  mkWorld None ∅ 0 b user [].

End Controller.

(** ** Vocabulary of the properties *)

Definition genericMsg : string := "The repository URL must be a valid http(s) URL.".

Section Vocabulary.

Context {env : Env}.

(** What the debug branch of [refreshPage] does. *)
Definition debugDump (html : string) : list Effect :=
  if cwEnvDev
  then [WriteFile "/Users/tim/Desktop/manage.html"
          (Js.replaceAll html "vscode-resource:/" "file:///")]
  else [].

(** Two worlds with the same session: the same reference, and the same
    panels but for what they display. *)
Definition sameSession (w w' : World) : Prop :=
  manageReposPage w' = manageReposPage w
  /\ nextPanel w' = nextPanel w
  /\ (setHtml "" <$> panels w') = (setHtml "" <$> panels w).

Definition quiet (es : list Effect) : bool :=
  forallb (fun e => negb (isFailedRequest e)) es.

(** What the catch around the whole handler puts in the log. *)
Definition unexpected (msg : IWVMessage) (err : JsError) : list Effect :=
  [Log LevelE "Error processing message from manage templates webview" [ArgErr err];
   Log LevelE "Message was" [ArgMsg msg]].

(** What the catch of the add branch shows and logs. *)
Definition addFailed (err : JsError) : list Effect :=
  [ShowErrorMessage ("Error adding new template repository: " ++ MCUtil_errToString err) err;
   Log LevelE "Error adding new template repo [object Object]" [ArgErr err]].

(** What the catch of the delete branch shows and logs. *)
Definition deleteFailed (repoUrl : JsValue) (err : JsError) : list Effect :=
  [ShowErrorMessage ("Error deleting template repository " ++ toStr repoUrl ++ ": "
                       ++ MCUtil_errToString err) err;
   Log LevelE ("Error removing template repo " ++ toStr repoUrl) [ArgErr err]].

(** A refresh under a catch: what it throws is caught, and [caught] is
    emitted for it. *)
Definition settle (caught : JsError -> list Effect) (r : Result unit * World)
  : Result unit * World :=
  match r with
  | (Ok _, w') => (Ok tt, w')
  | (Throw err, w') => (Ok tt, emitted (caught err) w')
  end.

Definition urlPrompt : string := "Enter the URL to your template repository's index file.".
Definition descriptionPrompt : string := "Enter a description for this template repository".

(** The description that is used for an answer to the second input box. *)
Definition descriptionOrDefault (d : option string) : string :=
  if Js.truthy d then default "" d else "(No description)".

(** The world when the add branch has logged its start. *)
Definition addStarted (connection : Connection.t) (w : World) : World :=
  emitted [Log LevelD ("Adding new repo to " ++ Connection.url connection) []] w.

(** The world when the two input boxes have been answered. *)
Definition prompted (connection : Connection.t) (w : World) (s : string) (d : option string)
    (rest : list (option string)) : World :=
  emitted [InputBox urlPrompt (Some s); InputBox descriptionPrompt d]
    (withAnswers rest (addStarted connection w)).

(** The claim C4 as it is written, on what the add operation is called
    with: when the user has entered the URL [s] and the description [t], the
    add operation is called with [s] and [t]. *)
Definition addsWhatWasEntered (connection : Connection.t) (msg : IWVMessage) (w : World)
  : Prop :=
  forall s t rest rest',
    inputBox (Some (validateRepoInput newURL)) (answers w) = (Some s, rest) ->
    s <> "" ->
    inputBox None rest = (Some t, rest') ->
    t <> "" ->
    exists ok,
      In (Request (AddTemplateRepo connection s t) ok)
         (trace (snd (handleWebviewMessage connection msg w))).

Definition isEnablementCall (e : Effect) : bool :=
  match e with
  | Request (EnableTemplateRepos _ _) _ => true
  | _ => false
  end.

(** Every failed call of the backend in [es], but for the calls [exempt]
    lets through, is followed by a report. *)
Fixpoint reported (exempt : Effect -> bool) (es : list Effect) : bool :=
  match es with
  | [] => true
  | e :: r =>
      (negb (isFailedRequest e) || exempt e || existsb isReport r) && reported exempt r
  end.

(** No failed call in [es] but for the calls [exempt] lets through. *)
Definition calm (exempt : Effect -> bool) (es : list Effect) : bool :=
  forallb (fun e => negb (isFailedRequest e) || exempt e) es.

Definition requests (es : list Effect) : list Effect := List.filter isRequest es.

(** The claim C5 as it is written, at one message: the handler returns
    normally and every failed call of the backend made while handling it
    is followed by a report (an error log entry or an error
    notification). *)
Definition handledAndReported (connection : Connection.t) (msg : IWVMessage) (w : World)
  : Prop :=
  let after := handleWebviewMessage connection msg w in
  fst after = Ok tt
  /\ reported (fun _ => false) (drop (length (trace w)) (trace (snd after))) = true.

(** The invariant of the module-level reference: the host has no panel of
    this module when the reference is empty, and otherwise exactly the
    panel it points to, which tells the module when it is disposed. *)
Definition singleSession (w : World) : Prop :=
  match manageReposPage w with
  | None => panels w = ∅
  | Some p =>
      p < nextPanel w
      /\ exists panel, panels w = {[p := panel]} /\ In ClearManageReposPage (onDidDispose panel)
  end.

(** The world of the command when it has created its panel and set it up,
    before the first refresh. *)
Definition created (w : World) : World :=
  mkWorld (Some (nextPanel w))
    (<[nextPanel w := mkPanel REPOS_PAGE_TITLE REPOS_PAGE_TITLE (Some logoIconPaths) ""
                        [ClearManageReposPage] []]> (panels w))
    (S (nextPanel w)) (backend w) (answers w) (trace w ++ [Reveal (nextPanel w)]).

(** A call of the backend that changes it: every call but the list fetch. *)
Definition isMutation (e : Effect) : bool :=
  match e with
  | Request (Get _) _ => false
  | Request _ _ => true
  | _ => false
  end.

(** Something shown to the user in a notification. *)
Definition isNotification (e : Effect) : bool :=
  match e with
  | ShowErrorMessage _ _ => true
  | ShowInformationMessage _ => true
  | _ => false
  end.

(** The calls of the backend one message may lead to, for [connection]:
    none, one list fetch, one mutating call, or one mutating call and then
    one list fetch; the fetch comes after an enablement that failed or after
    an add or a remove that succeeded. *)
Definition callShape (connection : Connection.t) (calls : list Effect) : Prop :=
  calls = []
  \/ (exists ok, calls = [Request (Get (resolveTemplateReposEndpoint connection)) ok])
  \/ (exists call ok,
        isMutation (Request call ok) = true
        /\ (calls = [Request call ok]
            \/ exists ok',
                 calls = [Request call ok;
                          Request (Get (resolveTemplateReposEndpoint connection)) ok']
                 /\ ok = negb (isEnablementCall (Request call ok)))).

(** The session is the panel [p], with the listener that clears the
    reference and with one handler of messages, bound to [connection]. *)
Definition boundTo (connection : Connection.t) (p : nat) (w : World) : Prop :=
  manageReposPage w = Some p
  /\ exists panel,
       panels w = {[p := panel]}
       /\ onDidDispose panel = [ClearManageReposPage]
       /\ onDidReceiveMessage panel = [connection].

(** The panel the command creates, displaying [html]. *)
Definition freshPanel (connection : Connection.t) (html : string) : WebviewPanel :=
  mkPanel REPOS_PAGE_TITLE REPOS_PAGE_TITLE (Some logoIconPaths) html
    [ClearManageReposPage] [connection].

End Vocabulary.

(** ** A backend to run the module against

    The repositories are a list, in the order of their addition.  Adding a
    URL that is present fails, removing a protected or absent repository
    fails, an enablement batch is applied item by item and fails at the
    first unknown repository (the items before it stay applied), and every
    call fails while the backend cannot be reached. *)

Module TestBackend.

Record t : Type := mk { stored : list IRawTemplateRepo.t; reachable : bool }.

Definition unreachable : JsError := Error "connect ECONNREFUSED".

Definition hasUrl (u : string) (r : IRawTemplateRepo.t) : bool :=
  String.eqb (IRawTemplateRepo.url r) u.

Definition setEnabled (u : string) (e : bool) (r : IRawTemplateRepo.t) : IRawTemplateRepo.t :=
  if hasUrl u r
  then IRawTemplateRepo.mk (IRawTemplateRepo.url r) (IRawTemplateRepo.name r)
         (IRawTemplateRepo.description r) e (IRawTemplateRepo.protected r)
  else r.

Fixpoint applyBatch (items : list RepoEnablement) (rs : list IRawTemplateRepo.t)
  : Result unit * list IRawTemplateRepo.t :=
  match items with
  | [] => (Ok tt, rs)
  | i :: rest =>
      if existsb (hasUrl (repoID i)) rs
      then applyBatch rest (map (setEnabled (repoID i) (enable i)) rs)
      else (Throw (Error ("Unknown repository " ++ repoID i)), rs)
  end.

Definition enableTemplateRepos (c : Connection.t) (v : JsValue) (b : t) : Result unit * t :=
  if reachable b then
    match v with
    | Enablement ev => let '(r, rs) := applyBatch (repos ev) (stored b) in (r, mk rs true)
    | _ => (Throw (Error "Bad request"), b)
    end
  else (Throw unreachable, b).

Definition addTemplateRepo (c : Connection.t) (u d : string) (b : t) : Result unit * t :=
  if reachable b then
    if existsb (hasUrl u) (stored b)
    then (Throw (Error "Repository is already present"), b)
    else (Ok tt, mk (stored b ++ [IRawTemplateRepo.mk u u d true false]) true)
  else (Throw unreachable, b).

Definition removeTemplateRepo (c : Connection.t) (v : JsValue) (b : t) : Result unit * t :=
  if reachable b then
    match v with
    | Str u =>
        match List.find (hasUrl u) (stored b) with
        | Some r =>
            if IRawTemplateRepo.protected r
            then (Throw (Error "Repository is protected"), b)
            else (Ok tt, mk (List.filter (fun r => negb (hasUrl u r)) (stored b)) true)
        | None => (Throw (Error "Unknown repository"), b)
        end
    | _ => (Throw (Error "Bad request"), b)
    end
  else (Throw unreachable, b).

Definition get (endpoint : string) (b : t) : Result (list IRawTemplateRepo.t) * t :=
  if reachable b then (Ok (stored b), b) else (Throw unreachable, b).

Definition render (rs : list IRawTemplateRepo.t) : string :=
  fold_right (fun r acc =>
                "<tr>" ++ IRawTemplateRepo.url r
                ++ (if IRawTemplateRepo.enabled r then " on" else " off") ++ "</tr>" ++ acc)
             "" rs.

Definition env : Env := {|
  Backend := t;
  Requester_enableTemplateRepos := enableTemplateRepos;
  Requester_addTemplateRepo := addTemplateRepo;
  Requester_removeTemplateRepo := removeTemplateRepo;
  Requester_get := get;
  resolveTemplateReposEndpoint := fun c => Connection.url c ++ "/api/v1/templates/repositories";
  generateManageReposHtml := render;
  MCUtil_errToString := fun e => match e with Error m => m end;
  logoIconPaths := ("res/img/light/logo.svg", "res/img/dark/logo.svg");
  cwEnvDev := false;
  newURL := UrlParser.parse
|}.

Definition conn : Connection.t := Connection.mk "http://localhost:9090".

Definition repoA : IRawTemplateRepo.t :=
  IRawTemplateRepo.mk "https://raw.githubusercontent.com/org/a/index.json" "a" "first" true true.
Definition repoB : IRawTemplateRepo.t :=
  IRawTemplateRepo.mk "https://x/index.json" "b" "second" true false.

Definition up : t := mk [repoA; repoB] true.

(** The world after the command was run once against [b], with the user
    going to give the answers [user]. *)
Definition opened (b : t) (user : list (option string)) : World (env := env) :=
  deliver (env := env) (RunCommand conn) (initial (env := env) b user).

End TestBackend.

(** ** Sample messages, users and worlds *)

Module Sample.
Import TestBackend.

Definition enableMsg : IWVMessage :=
  mkMsg ManageReposWVMessages.ENABLE_DISABLE
    (Enablement (mkEnablementEvent
                   [mkRepoEnablement "https://x/index.json" false;
                    mkRepoEnablement "a" false])).
Definition deleteMsg : IWVMessage :=
  mkMsg ManageReposWVMessages.DELETE (Str "https://x/index.json").
Definition addMsg : IWVMessage := mkMsg ManageReposWVMessages.ADD_NEW Undefined.
Definition strangeMsg : IWVMessage := mkMsg "enable-disable" Undefined.

(** The user tries a text that is no URL, then enters a URL with blanks
    around it, and dismisses the box for the description. *)
Definition user : list (option string) :=
  [Some "not-a-url"; Some " https://example.com/index.json "; None].

Definition session : World (env := env) := opened up user.

(** The user enters a URL and a description with blanks around them. *)
Definition padded : list (option string) :=
  [Some " https://example.com/index.json "; Some " My Templates "].

(** What panel [0] displays. *)
Definition shown (w : World (env := env)) : option string := html <$> panels w !! 0.

Definition listOf (rs : list IRawTemplateRepo.t) : option string := Some (render rs).

Definition repoB_off : IRawTemplateRepo.t :=
  IRawTemplateRepo.mk "https://x/index.json" "b" "second" false false.

Definition added : IRawTemplateRepo.t :=
  IRawTemplateRepo.mk "https://example.com/index.json" "https://example.com/index.json"
    "(No description)" true false.

Definition history : list HostEvent :=
  [RunCommand conn; RunCommand conn; PostMessage 0 deleteMsg].

End Sample.

(** ** A backend that drops its connection

    The sample backend behind a connection that carries a number of calls
    and fails every call after them. *)

Module FlakyBackend.

Record t : Type := mk { inner : TestBackend.t; budget : nat }.

Definition call {A} (op : TestBackend.t -> Result A * TestBackend.t) (b : t) : Result A * t :=
  match budget b with
  | O => (Throw TestBackend.unreachable, b)
  | S n => let '(r, i) := op (inner b) in (r, mk i n)
  end.

Definition env : Env := {|
  Backend := t;
  Requester_enableTemplateRepos := fun c v => call (TestBackend.enableTemplateRepos c v);
  Requester_addTemplateRepo := fun c u d => call (TestBackend.addTemplateRepo c u d);
  Requester_removeTemplateRepo := fun c v => call (TestBackend.removeTemplateRepo c v);
  Requester_get := fun endpoint => call (TestBackend.get endpoint);
  resolveTemplateReposEndpoint := resolveTemplateReposEndpoint (Env := TestBackend.env);
  generateManageReposHtml := TestBackend.render;
  MCUtil_errToString := MCUtil_errToString (Env := TestBackend.env);
  logoIconPaths := logoIconPaths (Env := TestBackend.env);
  cwEnvDev := true;
  newURL := UrlParser.parse
|}.

(** The world after the command was run once, the connection carrying
    [calls] calls more. *)
Definition opened (calls : nat) (user : list (option string)) : World (env := env) :=
  withBackend (env := env) (mk TestBackend.up calls)
    (deliver (env := env) (RunCommand TestBackend.conn)
       (initial (env := env) (mk TestBackend.up 1) user)).

End FlakyBackend.

Module MoreSamples.
Import TestBackend Sample.

Definition down : TestBackend.t := TestBackend.mk [repoA; repoB] false.

(** The open session of [Sample], the backend out of reach. *)
Definition cutOff : World (env := env) := withBackend (env := env) down session.

Definition enableOneMsg : IWVMessage :=
  mkMsg ManageReposWVMessages.ENABLE_DISABLE
    (Enablement (mkEnablementEvent [mkRepoEnablement "https://x/index.json" false])).
Definition refreshMsg : IWVMessage := mkMsg ManageReposWVMessages.REFRESH Undefined.

Definition other : Connection.t := Connection.mk "http://localhost:9091".

(** The user enters a URL and a description of blanks. *)
Definition blanks : list (option string) := [Some "https://example.com/index.json"; Some "   "].

(** The open session of [Sample] with its panel gone from the host while the
    reference still points to it. *)
Definition stale : World (env := env) := withPanels (env := env) ∅ session.

(** The panel of the open session of [Sample]. *)
Definition sessionPanel : WebviewPanel :=
  freshPanel (env := env) conn (render [repoA; repoB]).

End MoreSamples.

(** * Properties *)

(** ** [String.prototype.trim] *)

Module JsFacts.
Import Js.

Lemma append_cons (c : ascii) (a b : string) : String c a ++ b = String c (a ++ b).
Proof. reflexivity. Qed.

Lemma append_empty (b : string) : "" ++ b = b.
Proof. reflexivity. Qed.

Lemma trimStart_split (s : string) :
  exists a, s = a ++ trimStart s /\ allWhite a = true.
Proof.
  induction s as [|c s [a [Hs Ha]]]; simpl.
  - exists "". split; reflexivity.
  - destruct (isWhiteSpace c) eqn:Hc.
    + exists (String c a). split; [rewrite append_cons, <- Hs; reflexivity|].
      unfold allWhite in *. simpl. rewrite Hc. exact Ha.
    + exists "". split; reflexivity.
Qed.

Lemma trimStart_first (s : string) : notWhite (firstChar (trimStart s)) = true.
Proof.
  induction s as [|c s IH]; simpl; [reflexivity|].
  destruct (isWhiteSpace c) eqn:Hc; [exact IH|]. simpl. rewrite Hc. reflexivity.
Qed.

Lemma trimEnd_split (s : string) :
  exists b, s = trimEnd s ++ b /\ allWhite b = true.
Proof.
  induction s as [|c s [b [Hs Hb]]]; simpl.
  - exists "". split; reflexivity.
  - destruct (trimEnd s) as [|d r] eqn:Ht.
    + rewrite append_empty in Hs. subst s.
      destruct (isWhiteSpace c) eqn:Hc.
      * exists (String c b). split; [reflexivity|].
        unfold allWhite in *. simpl. rewrite Hc. exact Hb.
      * exists b. split; [reflexivity|exact Hb].
    + exists b. split; [rewrite append_cons, <- Hs; reflexivity|exact Hb].
Qed.

Lemma trimEnd_last (s : string) : notWhite (lastChar (trimEnd s)) = true.
Proof.
  induction s as [|c s IH]; simpl; [reflexivity|].
  destruct (trimEnd s) as [|d r] eqn:Ht.
  - destruct (isWhiteSpace c) eqn:Hc; simpl; [reflexivity|]. rewrite Hc. reflexivity.
  - exact IH.
Qed.

Lemma trimEnd_first (s : string) :
  notWhite (firstChar s) = true -> notWhite (firstChar (trimEnd s)) = true.
Proof.
  destruct s as [|c s]; simpl; [reflexivity|]. intros Hc.
  destruct (trimEnd s); [|exact Hc].
  destruct (isWhiteSpace c) eqn:E; [reflexivity|]. simpl. rewrite E. reflexivity.
Qed.

(** [trim] leaves no white space at either end. *)
Lemma trim_isTrimmed (s : string) : isTrimmed (trim s) = true.
Proof.
  unfold isTrimmed, trim. apply andb_true_intro. split.
  - apply trimEnd_first, trimStart_first.
  - apply trimEnd_last.
Qed.

(** [trim] removes white space only, and from the two ends only. *)
Lemma trim_split (s : string) :
  exists a b, s = a ++ trim s ++ b /\ allWhite a = true /\ allWhite b = true.
Proof.
  destruct (trimStart_split s) as [a [Hs Ha]].
  destruct (trimEnd_split (trimStart s)) as [b [Hb Hb']].
  exists a, b. unfold trim. rewrite <- Hb. auto.
Qed.

Lemma trimStart_allWhite (s : string) : allWhite s = true -> trimStart s = "".
Proof.
  unfold allWhite. induction s as [|c s IH]; simpl; [reflexivity|].
  intros [Hc Hs]%andb_prop. rewrite Hc. exact (IH Hs).
Qed.

(** A text of white space only is trimmed to the empty text. *)
Lemma trim_allWhite (s : string) : allWhite s = true -> trim s = "".
Proof. intros H. unfold trim. rewrite (trimStart_allWhite s H). reflexivity. Qed.

End JsFacts.

(** ** The input validator *)

Section ValidatorFacts.

Variable newURL : string -> option URL.

(** What does not parse, has no host, or has a protocol that does not
    start with the letters http, is rejected with the generic message. *)
Lemma validateRepoInput_generic (input : string) :
  match newURL input with
  | None => True
  | Some u => host u = "" \/ Js.startsWith (protocol u) "http" = false
  end ->
  validateRepoInput newURL input = Some genericMsg.
Proof.
  unfold validateRepoInput. destruct (newURL input) as [u|]; [|reflexivity].
  intros [H|H]; rewrite H; simpl; [reflexivity|].
  destruct (host u); reflexivity.
Qed.

(** The validator accepts or gives a hint whenever the protocol starts
    with the letters http and there is a host: the rest of the protocol is
    not looked at. *)
Lemma validateRepoInput_prefix_only (input : string) (u : URL) :
  newURL input = Some u ->
  host u <> "" ->
  Js.startsWith (protocol u) "http" = true ->
  validateRepoInput newURL input <> Some genericMsg.
Proof.
  intros Hu Hh Hp. unfold validateRepoInput. rewrite Hu, Hp.
  destruct (host u) as [|c h] eqn:E; [congruence|]. simpl negb. simpl orb. cbv iota.
  repeat match goal with
         | |- context [if ?b then _ else _] => destruct b
         end; discriminate.
Qed.

(** X1. The validator accepts an input exactly when it parses, has a host
    and a protocol that starts with http, a host with github in it also has
    raw in it, and a host with bitbucket or gitlab in it comes with a path
    that has raw in it. *)
Theorem validateRepoInput_accepts_iff (input : string) :
  validateRepoInput newURL input = None
  <-> exists u,
        newURL input = Some u
        /\ host u <> ""
        /\ Js.startsWith (protocol u) "http" = true
        /\ (Js.includes (host u) "github" = true -> Js.includes (host u) "raw" = true)
        /\ (Js.includes (host u) "bitbucket" = true -> Js.includes (pathname u) "raw" = true)
        /\ (Js.includes (host u) "gitlab" = true -> Js.includes (pathname u) "raw" = true).
Proof.
  unfold validateRepoInput. destruct (newURL input) as [u|].
  - split.
    + intros H. exists u. split; [reflexivity|].
      destruct (host u) as [|c h] eqn:Eh; [discriminate H|]. rewrite <- Eh in *.
      assert (T : Js.truthy (Some (host u)) = true) by (rewrite Eh; reflexivity).
      rewrite T in H. cbn [negb orb] in H.
      destruct (Js.startsWith (protocol u) "http"); [|discriminate H]. cbn [negb] in H.
      split; [rewrite Eh; discriminate|]. split; [reflexivity|].
      destruct (Js.includes (host u) "github"), (Js.includes (host u) "raw"),
        (Js.includes (host u) "bitbucket"), (Js.includes (host u) "gitlab"),
        (Js.includes (pathname u) "raw");
        cbn in H; try discriminate H; repeat split; intros; congruence.
    + intros (u' & [= <-] & Hh & Hp & Hg & Hb & Hl).
      assert (T : Js.truthy (Some (host u)) = true) by (destruct (host u); [congruence|reflexivity]).
      rewrite T, Hp. cbn [negb orb].
      destruct (Js.includes (host u) "github");
        [rewrite ?(Hg eq_refl)|]; cbn [negb andb];
        (destruct (Js.includes (host u) "bitbucket");
         [rewrite ?(Hb eq_refl)|]; cbn [negb andb];
         (destruct (Js.includes (host u) "gitlab");
          [rewrite ?(Hl eq_refl)|]; reflexivity)).
  - split; [discriminate|]. intros (u & H & _). discriminate H.
Qed.

(** X2. For a host with github and without raw in it, the hint for GitHub
    is given whatever the path is: raw in the path does not help, and the
    tests for Bitbucket and GitLab are not reached. *)
Theorem validateRepoInput_github_first (input : string) (u : URL) :
  newURL input = Some u ->
  Js.startsWith (protocol u) "http" = true ->
  Js.includes (host u) "github" = true ->
  Js.includes (host u) "raw" = false ->
  validateRepoInput newURL input = Some "For GitHub URLs, you must use the raw link.".
Proof.
  intros Hu Hp Hg Hr. unfold validateRepoInput. rewrite Hu, Hp, Hg, Hr.
  destruct (host u) as [|c h]; [discriminate Hg|]. reflexivity.
Qed.

(** X3. For a host of Bitbucket or GitLab that has not github in it, the
    input is accepted exactly when its path has raw in it; raw in the host
    does not count. *)
Theorem validateRepoInput_raw_in_path (input : string) (u : URL) :
  newURL input = Some u ->
  Js.startsWith (protocol u) "http" = true ->
  Js.includes (host u) "github" = false ->
  Js.includes (host u) "bitbucket" = true \/ Js.includes (host u) "gitlab" = true ->
  (validateRepoInput newURL input = None <-> Js.includes (pathname u) "raw" = true).
Proof.
  intros Hu Hp Hg Hbl. unfold validateRepoInput. rewrite Hu, Hp, Hg.
  assert (T : Js.truthy (Some (host u)) = true).
  { destruct (host u); [destruct Hbl as [H|H]; discriminate H|reflexivity]. }
  rewrite T. cbn [negb orb andb].
  destruct (Js.includes (pathname u) "raw"); cbn [negb];
    rewrite ?andb_true_r, ?andb_false_r.
  - split; reflexivity.
  - destruct Hbl as [H|H]; rewrite H;
      [|destruct (Js.includes (host u) "bitbucket")]; split; discriminate.
Qed.

End ValidatorFacts.

(** C7. The raw GitHub link of the spec's example is valid, and the link to
    the GitHub page of the same file is rejected with the hint for GitHub to
    use the raw link. *)
Theorem validateRepoInput_github_examples :
  validateRepoInput UrlParser.parse "https://raw.githubusercontent.com/org/repo/index.json" = None
  /\ validateRepoInput UrlParser.parse "https://github.com/org/repo/index.json"
     = Some "For GitHub URLs, you must use the raw link."
  /\ getRawLinkMsg "GitHub" = "For GitHub URLs, you must use the raw link.".
Proof. repeat split; vm_compute; reflexivity. Qed.

(** The input [not-a-url] has no scheme: it is rejected with the generic
    message. *)
Lemma validateRepoInput_not_a_url :
  validateRepoInput UrlParser.parse "not-a-url" = Some genericMsg.
Proof. vm_compute. reflexivity. Qed.

(** C6. The validator tests the protocol with [startsWith("http")], so the
    scheme httpx, which is neither http nor https, is accepted: the
    validator returns no message for [httpx://example.com/index.json]. *)
Theorem validateRepoInput_accepts_httpx :
  UrlParser.parse "httpx://example.com/index.json"
    = Some (mkURL "httpx:" "example.com" "/index.json")
  /\ validateRepoInput UrlParser.parse "httpx://example.com/index.json" = None.
Proof. split; vm_compute; reflexivity. Qed.

(** ** The controller *)

Section ControllerFacts.

Context {env : Env}.

Lemma world_eq (w w' : World) :
  manageReposPage w = manageReposPage w' -> panels w = panels w' ->
  nextPanel w = nextPanel w' -> backend w = backend w' ->
  answers w = answers w' -> trace w = trace w' -> w = w'.
Proof. destruct w, w'; simpl; intros; subst; reflexivity. Qed.

Lemma refreshPage_absent (connection : Connection.t) (w : World) :
  manageReposPage w = None ->
  refreshPage connection w
  = (Ok tt, emitted [Log LevelE "Refreshing manage repos page but it doesn't exist" []] w).
Proof.
  intros H. unfold refreshPage, bind, readPage. rewrite H. reflexivity.
Qed.

(** C9. When no panel session exists, [refreshPage] puts the violation in
    the error log and returns normally; it changes nothing else. *)
Theorem refreshPage_without_session (connection : Connection.t) (w : World) :
  manageReposPage w = None ->
  let after := refreshPage connection w in
  fst after = Ok tt
  /\ trace (snd after)
     = (trace w ++ [Log LevelE "Refreshing manage repos page but it doesn't exist" []])%list
  /\ snd after
     = emitted [Log LevelE "Refreshing manage repos page but it doesn't exist" []] w.
Proof.
  intros H after. subst after. rewrite (refreshPage_absent connection w H).
  repeat split.
Qed.

Lemma eqb_false_of_not_in (t v : string) (l : list string) :
  ~ In t l -> In v l -> String.eqb t v = false.
Proof.
  intros Hn Hv. apply String.eqb_neq. intros ->. exact (Hn Hv).
Qed.

(** *** [refreshPage] *)

Ltac unfold_async :=
  unfold refreshPage, fetchRepositoryList, get, enableTemplateRepos, addTemplateRepo,
    removeTemplateRepo, request, tryCatch, bind, ret, throw, Log_e, Log_i, Log_d,
    showErrorMessage, showInformationMessage, emit, readPage, writePage, onPanel, reveal.

Ltac same_world :=
  first
    [ reflexivity
    | apply world_eq; cbn [manageReposPage panels nextPanel backend answers trace
                           emitted withBackend withPanels withAnswers withPage];
      rewrite <- ?app_assoc; try reflexivity ].

Lemma refreshPage_fetch_failed (connection : Connection.t) (w : World) (p : nat)
    (e : JsError) (b : Backend) :
  manageReposPage w = Some p ->
  Requester_get (resolveTemplateReposEndpoint connection) (backend w) = (Throw e, b) ->
  refreshPage connection w
  = (Throw e, emitted [Request (Get (resolveTemplateReposEndpoint connection)) false]
                (withBackend b w)).
Proof.
  intros Hp Hg. unfold_async. rewrite Hp, Hg. reflexivity.
Qed.

Lemma refreshPage_fetched (connection : Connection.t) (w : World) (p : nat)
    (l : list IRawTemplateRepo.t) (b : Backend) :
  manageReposPage w = Some p ->
  Requester_get (resolveTemplateReposEndpoint connection) (backend w) = (Ok l, b) ->
  let html := generateManageReposHtml l in
  let w1 := emitted (Request (Get (resolveTemplateReposEndpoint connection)) true :: debugDump html)
              (withBackend b w) in
  refreshPage connection w
  = match panels w !! p with
    | Some panel => (Ok tt, withPanels (<[p := setHtml html panel]> (panels w)) w1)
    | None => (Throw (Error "Webview is disposed"), w1)
    end.
Proof.
  intros Hp Hg html w1. unfold_async. rewrite Hp, Hg. unfold debugDump in w1. subst w1.
  destruct cwEnvDev;
    repeat first [ progress cbn [manageReposPage panels emitted withBackend] | rewrite Hp ];
    destruct (panels w !! p); f_equal; same_world.
Qed.

Lemma sameSession_refl (w : World) : sameSession w w.
Proof. repeat split. Qed.

Lemma sameSession_trans (w1 w2 w3 : World) :
  sameSession w1 w2 -> sameSession w2 w3 -> sameSession w1 w3.
Proof. intros (A & B & C) (A' & B' & C'). repeat split; congruence. Qed.

Lemma debugDump_quiet (html : string) : quiet (debugDump html) = true.
Proof. unfold debugDump. destruct cwEnvDev; reflexivity. Qed.

(** [refreshPage] only adds to the trace and leaves the session as it is;
    when it returns, no call of the backend has failed in it. *)
Lemma refreshPage_frame (connection : Connection.t) (w : World) :
  sameSession w (snd (refreshPage connection w))
  /\ answers (snd (refreshPage connection w)) = answers w
  /\ exists es,
       trace (snd (refreshPage connection w)) = (trace w ++ es)%list
       /\ (fst (refreshPage connection w) = Ok tt -> quiet es = true).
Proof.
  destruct (manageReposPage w) as [p|] eqn:Hp.
  - destruct (Requester_get (resolveTemplateReposEndpoint connection) (backend w))
      as [[l|e] b] eqn:Hg.
    + rewrite (refreshPage_fetched connection w p l b Hp Hg).
      destruct (panels w !! p) as [panel|] eqn:Hl;
        cbn [fst snd trace emitted withPanels withBackend manageReposPage nextPanel
             answers panels];
        (split; [repeat split|split; [reflexivity|eexists; split; [reflexivity|]]]).
      * cbn [panels withPanels].
        rewrite fmap_insert. apply insert_id. rewrite lookup_fmap, Hl. reflexivity.
      * intros _. cbn. apply debugDump_quiet.
      * discriminate.
    + rewrite (refreshPage_fetch_failed connection w p e b Hp Hg).
      cbn [fst snd trace emitted withBackend manageReposPage nextPanel answers panels].
      split; [repeat split|split; [reflexivity|eexists; split; [reflexivity|discriminate]]].
  - rewrite (refreshPage_absent connection w Hp).
    cbn [fst snd trace emitted manageReposPage nextPanel answers panels].
    split; [repeat split|split; [reflexivity|eexists; split; [reflexivity|reflexivity]]].
Qed.

(** *** The message handler, one message type at a time *)

Ltac pick_case H :=
  unfold handleWebviewMessage; rewrite H; simpl (String.eqb _ _); cbv iota.

Ltac settle_refresh :=
  unfold settle;
  match goal with
  | |- context [refreshPage ?c ?w] =>
      destruct (refreshPage c w) as [[[]|?] ?]; f_equal; same_world
  end.

Lemma handle_enable_ok (connection : Connection.t) (msg : IWVMessage) (w : World) (b : Backend) :
  type msg = ManageReposWVMessages.ENABLE_DISABLE ->
  Requester_enableTemplateRepos connection (data msg) (backend w) = (Ok tt, b) ->
  handleWebviewMessage connection msg w
  = (Ok tt, emitted [Log LevelI "Enable/Disable repos:" [ArgValue (data msg)];
                     Request (EnableTemplateRepos connection (data msg)) true]
              (withBackend b w)).
Proof.
  intros Ht Hr. pick_case Ht. unfold_async. cbn [backend emitted]. rewrite Hr.
  f_equal; same_world.
Qed.

Lemma handle_enable_failed (connection : Connection.t) (msg : IWVMessage) (w : World)
    (e : JsError) (b : Backend) :
  type msg = ManageReposWVMessages.ENABLE_DISABLE ->
  Requester_enableTemplateRepos connection (data msg) (backend w) = (Throw e, b) ->
  handleWebviewMessage connection msg w
  = settle (unexpected msg)
      (refreshPage connection
         (emitted [Log LevelI "Enable/Disable repos:" [ArgValue (data msg)];
                   Request (EnableTemplateRepos connection (data msg)) false]
            (withBackend b w))).
Proof.
  intros Ht Hr. pick_case Ht.
  unfold tryCatch, bind, Log_i, Log_e, emit, enableTemplateRepos, request.
  cbn [backend emitted]. rewrite Hr.
  match goal with
  | |- context [refreshPage connection ?w1] =>
      replace w1 with
        (emitted [Log LevelI "Enable/Disable repos:" [ArgValue (data msg)];
                  Request (EnableTemplateRepos connection (data msg)) false]
           (withBackend b w)) by same_world
  end.
  settle_refresh.
Qed.

(** *** The prompt for a new repository *)

Lemma promptForNewRepo_cancelled (w : World) (u : option string) (rest : list (option string)) :
  inputBox (Some (validateRepoInput newURL)) (answers w) = (u, rest) ->
  Js.truthy u = false ->
  promptForNewRepo w = (Ok None, emitted [InputBox urlPrompt u] (withAnswers rest w)).
Proof.
  intros Hu Ht. unfold promptForNewRepo, bind, showInputBox. rewrite Hu.
  destruct u as [[|c s]|]; try discriminate; reflexivity.
Qed.

Lemma promptForNewRepo_entered (w : World) (s : string) (d : option string)
    (rest rest' : list (option string)) :
  inputBox (Some (validateRepoInput newURL)) (answers w) = (Some s, rest) ->
  s <> "" ->
  inputBox None rest = (d, rest') ->
  promptForNewRepo w
  = (Ok (Some (Js.trim s, Js.trim (descriptionOrDefault d))),
     emitted [InputBox urlPrompt (Some s); InputBox descriptionPrompt d] (withAnswers rest' w)).
Proof.
  intros Hu Hs Hd. unfold promptForNewRepo, bind, showInputBox. rewrite Hu.
  destruct s as [|c s]; [congruence|]. cbn [answers withAnswers emitted].
  rewrite Hd. unfold ret.
  destruct d as [[|c' d]|]; f_equal; apply world_eq; simpl; try reflexivity;
    rewrite <- app_assoc; reflexivity.
Qed.

(** C10. In the prompt for a new repository, once a URL was entered, an
    empty description and a dismissed description box give the same
    result, with the description "(No description)"; the URL and the
    description that are returned are the trimmed texts, with no white
    space at either end. *)
Theorem promptForNewRepo_description (w : World) (s : string) (d : option string)
    (rest rest' : list (option string)) :
  inputBox (Some (validateRepoInput newURL)) (answers w) = (Some s, rest) ->
  s <> "" ->
  inputBox None rest = (d, rest') ->
  exists repoUrl description,
    fst (promptForNewRepo w) = Ok (Some (repoUrl, description))
    /\ repoUrl = Js.trim s
    /\ (d = None \/ d = Some "" -> description = "(No description)")
    /\ (forall t, d = Some t -> t <> "" -> description = Js.trim t)
    /\ Js.isTrimmed repoUrl = true
    /\ Js.isTrimmed description = true.
Proof.
  intros Hu Hs Hd.
  exists (Js.trim s), (Js.trim (descriptionOrDefault d)).
  rewrite (promptForNewRepo_entered w s d rest rest' Hu Hs Hd).
  repeat split.
  - intros [-> | ->]; reflexivity.
  - intros t -> Ht. destruct t; [congruence|reflexivity].
  - apply JsFacts.trim_isTrimmed.
  - apply JsFacts.trim_isTrimmed.
Qed.

Lemma handle_delete_failed (connection : Connection.t) (msg : IWVMessage) (w : World)
    (e : JsError) (b : Backend) :
  type msg = ManageReposWVMessages.DELETE ->
  Requester_removeTemplateRepo connection (data msg) (backend w) = (Throw e, b) ->
  handleWebviewMessage connection msg w
  = (Ok tt,
     emitted (Log LevelD ("Delete repo " ++ toStr (data msg) ++ " from "
                            ++ Connection.url connection) []
              :: Request (RemoveTemplateRepo connection (data msg)) false
              :: deleteFailed (data msg) e)
       (withBackend b w)).
Proof.
  intros Ht Hr. pick_case Ht. unfold_async. cbn [backend emitted]. rewrite Hr.
  f_equal; same_world.
Qed.

Lemma handle_delete_ok (connection : Connection.t) (msg : IWVMessage) (w : World) (b : Backend) :
  type msg = ManageReposWVMessages.DELETE ->
  Requester_removeTemplateRepo connection (data msg) (backend w) = (Ok tt, b) ->
  handleWebviewMessage connection msg w
  = settle (deleteFailed (data msg))
      (refreshPage connection
         (emitted [Log LevelD ("Delete repo " ++ toStr (data msg) ++ " from "
                                 ++ Connection.url connection) [];
                   Request (RemoveTemplateRepo connection (data msg)) true]
            (withBackend b w))).
Proof.
  intros Ht Hr. pick_case Ht.
  unfold tryCatch, bind, Log_d, Log_e, showErrorMessage, emit, removeTemplateRepo, request.
  cbn [backend emitted]. rewrite Hr.
  match goal with
  | |- context [refreshPage connection ?w1] =>
      replace w1 with
        (emitted [Log LevelD ("Delete repo " ++ toStr (data msg) ++ " from "
                                ++ Connection.url connection) [];
                  Request (RemoveTemplateRepo connection (data msg)) true]
           (withBackend b w)) by same_world
  end.
  settle_refresh.
Qed.

Lemma handle_help (connection : Connection.t) (msg : IWVMessage) (w : World) :
  type msg = ManageReposWVMessages.HELP ->
  handleWebviewMessage connection msg w
  = (Ok tt, emitted [ShowInformationMessage
                       "More information about this page, or open a webpage, probably"] w).
Proof. intros Ht. pick_case Ht. reflexivity. Qed.

Lemma handle_refresh (connection : Connection.t) (msg : IWVMessage) (w : World) :
  type msg = ManageReposWVMessages.REFRESH ->
  handleWebviewMessage connection msg w = settle (unexpected msg) (refreshPage connection w).
Proof.
  intros Ht. pick_case Ht. unfold tryCatch, bind, Log_e, emit. settle_refresh.
Qed.

Lemma handle_unknown (connection : Connection.t) (msg : IWVMessage) (w : World) :
  ~ In (type msg) ManageReposWVMessages.values ->
  handleWebviewMessage connection msg w
  = (Ok tt, emitted [Log LevelE "Received unknown event from manage templates webview:"
                       [ArgMsg msg]] w).
Proof.
  intros Hn. unfold handleWebviewMessage, tryCatch.
  rewrite !(eqb_false_of_not_in _ _ _ Hn); simpl; auto 10.
Qed.

Lemma handle_add_cancelled (connection : Connection.t) (msg : IWVMessage) (w : World)
    (u : option string) (rest : list (option string)) :
  type msg = ManageReposWVMessages.ADD_NEW ->
  inputBox (Some (validateRepoInput newURL)) (answers w) = (u, rest) ->
  Js.truthy u = false ->
  handleWebviewMessage connection msg w
  = (Ok tt, emitted [InputBox urlPrompt u] (withAnswers rest (addStarted connection w))).
Proof.
  intros Ht Hu Hc. pick_case Ht. unfold tryCatch, bind, Log_d, emit.
  pose proof (promptForNewRepo_cancelled (addStarted connection w) u rest Hu Hc) as P.
  unfold addStarted in P. rewrite P. reflexivity.
Qed.

Lemma handle_add_failed (connection : Connection.t) (msg : IWVMessage) (w : World)
    (s : string) (d : option string) (rest rest' : list (option string))
    (e : JsError) (b : Backend) :
  type msg = ManageReposWVMessages.ADD_NEW ->
  inputBox (Some (validateRepoInput newURL)) (answers w) = (Some s, rest) ->
  s <> "" ->
  inputBox None rest = (d, rest') ->
  Requester_addTemplateRepo connection (Js.trim s) (Js.trim (descriptionOrDefault d)) (backend w)
  = (Throw e, b) ->
  handleWebviewMessage connection msg w
  = (Ok tt,
     emitted (Request (AddTemplateRepo connection (Js.trim s) (Js.trim (descriptionOrDefault d)))
                false :: addFailed e)
       (withBackend b (prompted connection w s d rest'))).
Proof.
  intros Ht Hu Hs Hd Hr. pick_case Ht. unfold tryCatch at 1. unfold bind at 1 2.
  unfold Log_d, emit.
  pose proof (promptForNewRepo_entered (addStarted connection w) s d rest rest' Hu Hs Hd) as P.
  unfold addStarted in P. rewrite P. unfold prompted, addStarted.
  unfold_async. cbn [backend emitted withAnswers addStarted]. rewrite Hr.
  f_equal; same_world.
Qed.

Lemma handle_add_ok (connection : Connection.t) (msg : IWVMessage) (w : World)
    (s : string) (d : option string) (rest rest' : list (option string)) (b : Backend) :
  type msg = ManageReposWVMessages.ADD_NEW ->
  inputBox (Some (validateRepoInput newURL)) (answers w) = (Some s, rest) ->
  s <> "" ->
  inputBox None rest = (d, rest') ->
  Requester_addTemplateRepo connection (Js.trim s) (Js.trim (descriptionOrDefault d)) (backend w)
  = (Ok tt, b) ->
  handleWebviewMessage connection msg w
  = settle addFailed
      (refreshPage connection
         (emitted [Request (AddTemplateRepo connection (Js.trim s)
                              (Js.trim (descriptionOrDefault d))) true]
            (withBackend b (prompted connection w s d rest')))).
Proof.
  intros Ht Hu Hs Hd Hr. pick_case Ht. unfold tryCatch at 1. unfold bind at 1 2.
  unfold Log_d, emit.
  pose proof (promptForNewRepo_entered (addStarted connection w) s d rest rest' Hu Hs Hd) as P.
  unfold addStarted in P. rewrite P. unfold prompted, addStarted.
  unfold tryCatch, bind, Log_e, showErrorMessage, emit, addTemplateRepo, request.
  cbn [backend emitted withAnswers addStarted]. rewrite Hr.
  match goal with
  | |- context [refreshPage connection ?w1] =>
      replace w1 with
        (emitted [Request (AddTemplateRepo connection (Js.trim s)
                             (Js.trim (descriptionOrDefault d))) true]
           (withBackend b (prompted connection w s d rest'))) by same_world
  end.
  settle_refresh.
Qed.

(** *** Failures and their reports *)

Lemma reported_calm (exempt : Effect -> bool) (es : list Effect) :
  calm exempt es = true -> reported exempt es = true.
Proof.
  induction es as [|e r IH]; simpl; [reflexivity|].
  intros [He Hr]%andb_prop. rewrite (IH Hr), andb_true_r.
  destruct (negb (isFailedRequest e) || exempt e); [reflexivity|discriminate].
Qed.

Lemma reported_before_report (exempt : Effect -> bool) (a t : list Effect) :
  existsb isReport t = true -> reported exempt t = true -> reported exempt (a ++ t) = true.
Proof.
  intros Ht Hr. induction a as [|e r IH]; simpl; [exact Hr|].
  rewrite IH, andb_true_r, existsb_app, Ht. rewrite !orb_true_r. reflexivity.
Qed.

Lemma quiet_calm (exempt : Effect -> bool) (es : list Effect) :
  quiet es = true -> calm exempt es = true.
Proof.
  unfold quiet, calm. rewrite !forallb_forall. intros H e He. rewrite (H e He). reflexivity.
Qed.

Lemma calm_app (exempt : Effect -> bool) (a b : list Effect) :
  calm exempt a = true -> calm exempt b = true -> calm exempt (a ++ b) = true.
Proof. unfold calm. rewrite forallb_app. intros -> ->. reflexivity. Qed.

(** A refresh under a catch that reports: nothing is thrown, the session
    stays, and after a calm start every failure is reported. *)
Lemma settle_frame (caught : JsError -> list Effect) (connection : Connection.t) (w1 : World) :
  (forall err, existsb isReport (caught err) = true /\ quiet (caught err) = true) ->
  let after := settle caught (refreshPage connection w1) in
  fst after = Ok tt
  /\ sameSession w1 (snd after)
  /\ exists es,
       trace (snd after) = (trace w1 ++ es)%list
       /\ forall exempt pre, calm exempt pre = true -> reported exempt (pre ++ es) = true.
Proof.
  intros Hc after. subst after.
  destruct (refreshPage_frame connection w1) as (Hs & _ & es & Ht & Hq).
  unfold settle. destruct (refreshPage connection w1) as [[[]|err] w'];
    cbn [fst snd] in *.
  - split; [reflexivity|]. split; [exact Hs|]. exists es. split; [exact Ht|].
    intros exempt pre Hp. apply reported_calm, calm_app; [exact Hp|].
    apply quiet_calm, Hq. reflexivity.
  - split; [reflexivity|]. split; [exact Hs|]. exists (es ++ caught err)%list.
    split; [cbn [trace emitted]; rewrite Ht, app_assoc; reflexivity|].
    intros exempt pre Hp. rewrite app_assoc.
    destruct (Hc err) as [Hr Hq'].
    apply reported_before_report; [exact Hr|]. apply reported_calm, quiet_calm, Hq'.
Qed.

Lemma unexpected_reports (msg : IWVMessage) (err : JsError) :
  existsb isReport (unexpected msg err) = true /\ quiet (unexpected msg err) = true.
Proof. split; reflexivity. Qed.

Lemma addFailed_reports (err : JsError) :
  existsb isReport (addFailed err) = true /\ quiet (addFailed err) = true.
Proof. split; reflexivity. Qed.

Lemma deleteFailed_reports (v : JsValue) (err : JsError) :
  existsb isReport (deleteFailed v err) = true /\ quiet (deleteFailed v err) = true.
Proof. split; reflexivity. Qed.

(** The frame of a step that keeps the session and emits [pre] before a
    refresh under a catch. *)
Lemma after_settle (caught : JsError -> list Effect) (connection : Connection.t)
    (w w1 : World) (pre : list Effect) :
  (forall err, existsb isReport (caught err) = true /\ quiet (caught err) = true) ->
  sameSession w w1 ->
  trace w1 = (trace w ++ pre)%list ->
  calm isEnablementCall pre = true ->
  let after := settle caught (refreshPage connection w1) in
  fst after = Ok tt
  /\ sameSession w (snd after)
  /\ exists es,
       trace (snd after) = (trace w ++ es)%list /\ reported isEnablementCall es = true.
Proof.
  intros Hc Hs Ht Hp after.
  destruct (settle_frame caught connection w1 Hc) as (Hok & Hs' & es & Ht' & Hr).
  fold after in Hok, Hs', Ht'.
  split; [exact Hok|]. split; [exact (sameSession_trans _ _ _ Hs Hs')|].
  exists (pre ++ es)%list. split; [rewrite Ht', Ht, app_assoc; reflexivity|].
  apply Hr, Hp.
Qed.

Ltac kept :=
  unfold sameSession, prompted, addStarted;
  cbn [snd manageReposPage nextPanel panels emitted withBackend withAnswers];
  repeat split.

Lemma not_member (t : string) :
  t <> ManageReposWVMessages.ENABLE_DISABLE -> t <> ManageReposWVMessages.ADD_NEW ->
  t <> ManageReposWVMessages.DELETE -> t <> ManageReposWVMessages.HELP ->
  t <> ManageReposWVMessages.REFRESH ->
  ~ In t ManageReposWVMessages.values.
Proof.
  intros N1 N2 N3 N4 N5 [H|[H|[H|[H|[H|[]]]]]]; congruence.
Qed.

(** The handler returns normally on every message, keeps the session, and
    every failed call of the backend in it is reported, but for a failed
    enablement call. *)
Lemma handle_frame (connection : Connection.t) (msg : IWVMessage) (w : World) :
  let after := handleWebviewMessage connection msg w in
  fst after = Ok tt
  /\ sameSession w (snd after)
  /\ exists es,
       trace (snd after) = (trace w ++ es)%list /\ reported isEnablementCall es = true.
Proof.
  intros after. subst after.
  destruct (String.eqb_spec (type msg) ManageReposWVMessages.ENABLE_DISABLE) as [Ht|N1].
  { destruct (Requester_enableTemplateRepos connection (data msg) (backend w))
      as [[[]|e] b] eqn:Hr.
    - rewrite (handle_enable_ok connection msg w b Ht Hr).
      split; [reflexivity|]. split; [kept|].
      eexists. split; reflexivity.
    - rewrite (handle_enable_failed connection msg w e b Ht Hr).
      eapply after_settle;
        [apply unexpected_reports|kept|reflexivity|reflexivity]. }
  destruct (String.eqb_spec (type msg) ManageReposWVMessages.ADD_NEW) as [Ht|N2].
  { destruct (inputBox (Some (validateRepoInput newURL)) (answers w)) as [u rest] eqn:Hu.
    destruct (Js.truthy u) eqn:Hc.
    - destruct u as [s|]; [|discriminate].
      assert (Hs : s <> "") by (intros ->; discriminate).
      destruct (inputBox None rest) as [d rest'] eqn:Hd.
      destruct (Requester_addTemplateRepo connection (Js.trim s)
                  (Js.trim (descriptionOrDefault d)) (backend w)) as [[[]|e] b] eqn:Hr.
      + rewrite (handle_add_ok connection msg w s d rest rest' b Ht Hu Hs Hd Hr).
        eapply after_settle; [apply addFailed_reports|kept| |].
        * cbn [trace emitted withBackend prompted withAnswers addStarted].
          rewrite <- !app_assoc. reflexivity.
        * reflexivity.
      + rewrite (handle_add_failed connection msg w s d rest rest' e b Ht Hu Hs Hd Hr).
        split; [reflexivity|]. split; [kept|].
        eexists. split.
        * cbn [snd trace emitted withBackend prompted withAnswers addStarted].
          rewrite <- !app_assoc. reflexivity.
        * reflexivity.
    - rewrite (handle_add_cancelled connection msg w u rest Ht Hu Hc).
      split; [reflexivity|]. split; [kept|].
      eexists. split.
      + cbn [snd trace emitted withAnswers addStarted]. rewrite <- !app_assoc. reflexivity.
      + reflexivity. }
  destruct (String.eqb_spec (type msg) ManageReposWVMessages.DELETE) as [Ht|N3].
  { destruct (Requester_removeTemplateRepo connection (data msg) (backend w))
      as [[[]|e] b] eqn:Hr.
    - rewrite (handle_delete_ok connection msg w b Ht Hr).
      eapply after_settle;
        [apply deleteFailed_reports|kept|reflexivity|reflexivity].
    - rewrite (handle_delete_failed connection msg w e b Ht Hr).
      split; [reflexivity|]. split; [kept|].
      eexists. split; reflexivity. }
  destruct (String.eqb_spec (type msg) ManageReposWVMessages.HELP) as [Ht|N4].
  { rewrite (handle_help connection msg w Ht).
    split; [reflexivity|]. split; [kept|].
    eexists. split; reflexivity. }
  destruct (String.eqb_spec (type msg) ManageReposWVMessages.REFRESH) as [Ht|N5].
  { rewrite (handle_refresh connection msg w Ht).
    eapply (after_settle _ _ w w []);
      [apply unexpected_reports|kept|symmetry; apply app_nil_r|reflexivity]. }
  rewrite (handle_unknown connection msg w (not_member _ N1 N2 N3 N4 N5)).
  split; [reflexivity|]. split; [kept|].
  eexists. split; reflexivity.
Qed.

(** *** What each message does *)

(** C8. A message whose type is not a member of [ManageReposWVMessages] is
    put in the error log and nothing else happens: the world is the same
    but for that log entry, so no call of the Repository Client was made
    and the page was not refreshed. *)
Theorem unknown_message_only_logged (connection : Connection.t) (msg : IWVMessage) (w : World) :
  ~ In (type msg) ManageReposWVMessages.values ->
  let after := handleWebviewMessage connection msg w in
  after = (Ok tt, emitted [Log LevelE "Received unknown event from manage templates webview:"
                             [ArgMsg msg]] w)
  /\ backend (snd after) = backend w
  /\ panels (snd after) = panels w
  /\ requests (trace (snd after)) = requests (trace w).
Proof.
  intros Hn after. subst after. rewrite (handle_unknown connection msg w Hn).
  cbn [snd backend panels trace emitted]. repeat split.
  unfold requests. rewrite List.filter_app. apply app_nil_r.
Qed.

(** C2. When the enablement call of an enable-disable message fails, the
    handler does one thing more, a refresh: the panels, the session and the
    backend are afterwards what [refreshPage] makes of the world at the
    failure, and also what a refresh message makes of it; the calls of the
    backend are the failed one and those of that refresh. *)
Theorem enable_failure_forces_refresh (connection : Connection.t) (msg : IWVMessage)
    (w : World) (e : JsError) (b : Backend) :
  type msg = ManageReposWVMessages.ENABLE_DISABLE ->
  Requester_enableTemplateRepos connection (data msg) (backend w) = (Throw e, b) ->
  let atFailure :=
    emitted [Log LevelI "Enable/Disable repos:" [ArgValue (data msg)];
             Request (EnableTemplateRepos connection (data msg)) false] (withBackend b w) in
  let refreshed := snd (refreshPage connection atFailure) in
  let after := handleWebviewMessage connection msg w in
  fst after = Ok tt
  /\ panels (snd after) = panels refreshed
  /\ manageReposPage (snd after) = manageReposPage refreshed
  /\ backend (snd after) = backend refreshed
  /\ requests (trace (snd after)) = requests (trace refreshed)
  /\ panels (snd after)
     = panels (snd (handleWebviewMessage connection
                      (mkMsg ManageReposWVMessages.REFRESH Undefined) atFailure)).
Proof.
  intros Ht Hr atFailure refreshed after. subst after refreshed.
  rewrite (handle_enable_failed connection msg w e b Ht Hr).
  rewrite (handle_refresh connection (mkMsg ManageReposWVMessages.REFRESH Undefined)
             atFailure eq_refl).
  fold atFailure. unfold settle.
  destruct (refreshPage connection atFailure) as [[[]|err] w'];
    cbn [fst snd panels manageReposPage backend trace emitted]; repeat split.
  unfold requests. rewrite List.filter_app. apply app_nil_r.
Qed.

(** C3. A delete message calls the remove operation with the data of the
    message, before any other call.  When the call fails, the error is
    shown and logged and nothing else is done: no list is fetched and the
    panels are as before.  When it succeeds, a refresh follows: the panels
    are what [refreshPage] makes of the world after the removal, and a
    live panel for which the list is fetched displays the rendering of
    that list. *)
Theorem delete_then_refresh (connection : Connection.t) (msg : IWVMessage) (w : World) :
  type msg = ManageReposWVMessages.DELETE ->
  let after := handleWebviewMessage connection msg w in
  let started := Log LevelD ("Delete repo " ++ toStr (data msg) ++ " from "
                               ++ Connection.url connection) [] in
  fst after = Ok tt
  /\ (exists ok es,
        trace (snd after)
        = (trace w ++ started :: Request (RemoveTemplateRepo connection (data msg)) ok :: es)%list)
  /\ (forall e b,
        Requester_removeTemplateRepo connection (data msg) (backend w) = (Throw e, b) ->
        snd after
        = emitted (started :: Request (RemoveTemplateRepo connection (data msg)) false
                     :: deleteFailed (data msg) e) (withBackend b w)
        /\ panels (snd after) = panels w
        /\ requests (trace (snd after))
           = (requests (trace w)
                ++ [Request (RemoveTemplateRepo connection (data msg)) false])%list)
  /\ (forall b,
        Requester_removeTemplateRepo connection (data msg) (backend w) = (Ok tt, b) ->
        let removed :=
          emitted [started; Request (RemoveTemplateRepo connection (data msg)) true]
            (withBackend b w) in
        let refreshed := snd (refreshPage connection removed) in
        panels (snd after) = panels refreshed
        /\ backend (snd after) = backend refreshed
        /\ requests (trace (snd after)) = requests (trace refreshed)
        /\ forall p panel l b',
             manageReposPage w = Some p ->
             panels w !! p = Some panel ->
             Requester_get (resolveTemplateReposEndpoint connection) b = (Ok l, b') ->
             panels (snd after) !! p = Some (setHtml (generateManageReposHtml l) panel)
             /\ backend (snd after) = b').
Proof.
  intros Ht after started. subst after.
  split; [apply handle_frame|]. split; [|split].
  - destruct (Requester_removeTemplateRepo connection (data msg) (backend w))
      as [[[]|e] b] eqn:Hr.
    + rewrite (handle_delete_ok connection msg w b Ht Hr).
      match goal with
      | |- context [refreshPage connection ?w1] =>
          destruct (refreshPage_frame connection w1) as (_ & _ & es & Hes & _);
          unfold settle; destruct (refreshPage connection w1) as [[[]|err] w']
      end; cbn [fst snd trace emitted withBackend] in *; rewrite Hes;
        eexists; eexists; rewrite <- ?app_assoc; reflexivity.
    + rewrite (handle_delete_failed connection msg w e b Ht Hr).
      eexists; eexists. reflexivity.
  - intros e b Hr. rewrite (handle_delete_failed connection msg w e b Ht Hr).
    cbn [snd panels trace emitted withBackend]. repeat split.
    unfold requests. rewrite List.filter_app. reflexivity.
  - intros b Hr removed refreshed. subst refreshed.
    rewrite (handle_delete_ok connection msg w b Ht Hr). fold started. fold removed.
    split; [|split; [|split]].
    + unfold settle. destruct (refreshPage connection removed) as [[[]|err] w']; reflexivity.
    + unfold settle. destruct (refreshPage connection removed) as [[[]|err] w']; reflexivity.
    + unfold settle. destruct (refreshPage connection removed) as [[[]|err] w'];
        cbn [snd trace emitted]; [reflexivity|].
      unfold requests. rewrite List.filter_app. apply app_nil_r.
    + intros p panel l b' Hp Hl Hg.
      rewrite (refreshPage_fetched connection removed p l b' Hp Hg).
      cbn [panels removed emitted withBackend]. rewrite Hl.
      cbn [settle snd panels withPanels backend emitted withBackend].
      split; [apply lookup_insert_eq|reflexivity].
Qed.

Ltac count_requests :=
  unfold requests; rewrite ?List.filter_app; cbn [List.filter isRequest app];
  rewrite ?app_nil_r; try reflexivity.

(** C4, amended. An add-new message opens the input box for the URL first.  When
    that box is dismissed (or gives the empty text), nothing else is done:
    no call of the backend, no refresh.  Otherwise the box for the
    description is opened next, a dismissed description becomes
    "(No description)", and the add operation is called with the trimmed
    URL and description.  When the call fails the error is shown and
    logged and no list is fetched; when it succeeds a refresh follows. *)
Theorem add_new_prompts_then_adds (connection : Connection.t) (msg : IWVMessage) (w : World)
    (u : option string) (rest : list (option string)) :
  type msg = ManageReposWVMessages.ADD_NEW ->
  inputBox (Some (validateRepoInput newURL)) (answers w) = (u, rest) ->
  let after := handleWebviewMessage connection msg w in
  let started := Log LevelD ("Adding new repo to " ++ Connection.url connection) [] in
  fst after = Ok tt
  /\ (exists es, trace (snd after) = (trace w ++ started :: InputBox urlPrompt u :: es)%list)
  /\ (Js.truthy u = false ->
        snd after = emitted [started; InputBox urlPrompt u] (withAnswers rest w)
        /\ backend (snd after) = backend w
        /\ panels (snd after) = panels w
        /\ requests (trace (snd after)) = requests (trace w))
  /\ (forall s d rest',
        u = Some s -> s <> "" ->
        inputBox None rest = (d, rest') ->
        let description := Js.trim (descriptionOrDefault d) in
        let call := AddTemplateRepo connection (Js.trim s) description in
        let asked := [started; InputBox urlPrompt (Some s); InputBox descriptionPrompt d] in
        (d = None -> description = "(No description)")
        /\ (exists ok es, trace (snd after) = (trace w ++ asked ++ Request call ok :: es)%list)
        /\ (forall e b,
              Requester_addTemplateRepo connection (Js.trim s) description (backend w)
              = (Throw e, b) ->
              snd after
              = emitted (asked ++ Request call false :: addFailed e)
                  (withBackend b (withAnswers rest' w))
              /\ panels (snd after) = panels w
              /\ requests (trace (snd after)) = (requests (trace w) ++ [Request call false])%list)
        /\ (forall b,
              Requester_addTemplateRepo connection (Js.trim s) description (backend w)
              = (Ok tt, b) ->
              let added :=
                emitted (asked ++ [Request call true]) (withBackend b (withAnswers rest' w)) in
              let refreshed := snd (refreshPage connection added) in
              panels (snd after) = panels refreshed
              /\ backend (snd after) = backend refreshed
              /\ requests (trace (snd after)) = requests (trace refreshed))).
Proof.
  intros Ht Hu after started. subst after.
  split; [apply handle_frame|]. split; [|split].
  - destruct (Js.truthy u) eqn:Hc.
    + destruct u as [s|]; [|discriminate].
      assert (Hs : s <> "") by (intros ->; discriminate).
      destruct (inputBox None rest) as [d rest'] eqn:Hd.
      destruct (Requester_addTemplateRepo connection (Js.trim s)
                  (Js.trim (descriptionOrDefault d)) (backend w)) as [[[]|e] b] eqn:Hr.
      * rewrite (handle_add_ok connection msg w s d rest rest' b Ht Hu Hs Hd Hr).
        match goal with
        | |- context [refreshPage connection ?w1] =>
            destruct (refreshPage_frame connection w1) as (_ & _ & es & Hes & _);
            unfold settle; destruct (refreshPage connection w1) as [[[]|err] w']
        end;
          cbn [fst snd trace emitted withBackend withAnswers prompted addStarted] in *;
          rewrite Hes; eexists; rewrite <- ?app_assoc; reflexivity.
      * rewrite (handle_add_failed connection msg w s d rest rest' e b Ht Hu Hs Hd Hr).
        cbn [fst snd trace emitted withBackend withAnswers prompted addStarted].
        eexists; rewrite <- ?app_assoc; reflexivity.
    + rewrite (handle_add_cancelled connection msg w u rest Ht Hu Hc).
      cbn [fst snd trace emitted withBackend withAnswers prompted addStarted].
      exists []. rewrite <- ?app_assoc; reflexivity.
  - intros Hc. rewrite (handle_add_cancelled connection msg w u rest Ht Hu Hc).
    unfold addStarted. cbn [snd backend panels trace emitted withAnswers].
    split; [(unfold prompted, addStarted; same_world)|]. repeat split.
    count_requests.
  - intros s d rest' -> Hs Hd description call asked.
    split; [intros ->; reflexivity|]. split; [|split].
    + destruct (Requester_addTemplateRepo connection (Js.trim s)
                  (Js.trim (descriptionOrDefault d)) (backend w)) as [[[]|e] b] eqn:Hr.
      * rewrite (handle_add_ok connection msg w s d rest rest' b Ht Hu Hs Hd Hr).
        match goal with
        | |- context [refreshPage connection ?w1] =>
            destruct (refreshPage_frame connection w1) as (_ & _ & es & Hes & _);
            unfold settle; destruct (refreshPage connection w1) as [[[]|err] w']
        end;
          cbn [fst snd trace emitted withBackend withAnswers prompted addStarted] in *;
          rewrite Hes; eexists; eexists; subst asked call description;
          rewrite <- ?app_assoc; reflexivity.
      * rewrite (handle_add_failed connection msg w s d rest rest' e b Ht Hu Hs Hd Hr).
        cbn [fst snd trace emitted withBackend withAnswers prompted addStarted].
        eexists; eexists; subst asked call description; rewrite <- ?app_assoc; reflexivity.
    + intros e b Hr.
      rewrite (handle_add_failed connection msg w s d rest rest' e b Ht Hu Hs Hd Hr).
      unfold prompted, addStarted.
      cbn [snd backend panels trace emitted withAnswers withBackend].
      split; [(unfold prompted, addStarted; same_world)|]. repeat split.
      count_requests.
    + intros b Hr added refreshed. subst refreshed.
      rewrite (handle_add_ok connection msg w s d rest rest' b Ht Hu Hs Hd Hr).
      match goal with
      | |- context [settle _ (refreshPage connection ?w1)] =>
          replace w1 with added by (subst added; (unfold prompted, addStarted; same_world))
      end.
      unfold settle. destruct (refreshPage connection added) as [[[]|err] w'];
        cbn [snd panels backend trace emitted]; repeat split.
      count_requests.
Qed.

(** C5, amended. Whatever fails while a message is handled, the handler
    returns normally and keeps the session, so the next message is handled
    as well.  Every failure is reported inside the handler, but for a failed
    enablement call, which is answered with a refresh and has no report of
    its own.  A failed add or remove call is shown to the user and put in
    the error log, with the error.  Whatever the refresh of a branch throws
    (a failed list fetch, a disposed panel, a lost reference) is reported
    with that error: by the two log entries of the outer catch in the
    refresh and the enablement branch, by the notification and the log
    entry of the branch in the add and the delete branch. *)
Theorem handler_catches_every_failure (connection : Connection.t) (msg : IWVMessage)
    (w : World) :
  let after := handleWebviewMessage connection msg w in
  let logged err :=
    [Log LevelE "Error processing message from manage templates webview" [ArgErr err];
     Log LevelE "Message was" [ArgMsg msg]] in
  let addReport err :=
    [ShowErrorMessage ("Error adding new template repository: " ++ MCUtil_errToString err) err;
     Log LevelE "Error adding new template repo [object Object]" [ArgErr err]] in
  let deleteReport err :=
    [ShowErrorMessage ("Error deleting template repository " ++ toStr (data msg) ++ ": "
                         ++ MCUtil_errToString err) err;
     Log LevelE ("Error removing template repo " ++ toStr (data msg)) [ArgErr err]] in
  let deleteStarted :=
    Log LevelD ("Delete repo " ++ toStr (data msg) ++ " from " ++ Connection.url connection) [] in
  let enableFailed b :=
    emitted [Log LevelI "Enable/Disable repos:" [ArgValue (data msg)];
             Request (EnableTemplateRepos connection (data msg)) false] (withBackend b w) in
  let removed b :=
    emitted [deleteStarted; Request (RemoveTemplateRepo connection (data msg)) true]
      (withBackend b w) in
  let added s d rest b :=
    emitted [Request (AddTemplateRepo connection (Js.trim s) (Js.trim (descriptionOrDefault d)))
               true]
      (withBackend b (prompted connection w s d rest)) in
  fst after = Ok tt
  /\ sameSession w (snd after)
  /\ reported isEnablementCall (drop (length (trace w)) (trace (snd after))) = true
  /\ (forall c' msg', fst (handleWebviewMessage c' msg' (snd after)) = Ok tt)
  /\ (forall e b,
        type msg = ManageReposWVMessages.ENABLE_DISABLE ->
        Requester_enableTemplateRepos connection (data msg) (backend w) = (Throw e, b) ->
        after
        = settle (unexpected msg)
            (refreshPage connection
               (emitted [Log LevelI "Enable/Disable repos:" [ArgValue (data msg)];
                         Request (EnableTemplateRepos connection (data msg)) false]
                  (withBackend b w))))
  (* a failed enablement call: the refresh, and nothing for the failure itself *)
  /\ (forall e b,
        type msg = ManageReposWVMessages.ENABLE_DISABLE ->
        Requester_enableTemplateRepos connection (data msg) (backend w) = (Throw e, b) ->
        fst (refreshPage connection (enableFailed b)) = Ok tt ->
        snd after = snd (refreshPage connection (enableFailed b)))
  (* a failed remove call *)
  /\ (forall e b,
        type msg = ManageReposWVMessages.DELETE ->
        Requester_removeTemplateRepo connection (data msg) (backend w) = (Throw e, b) ->
        snd after
        = emitted (deleteStarted :: Request (RemoveTemplateRepo connection (data msg)) false
                     :: deleteReport e) (withBackend b w))
  (* a failed add call *)
  /\ (forall s d rest rest' e b,
        type msg = ManageReposWVMessages.ADD_NEW ->
        inputBox (Some (validateRepoInput newURL)) (answers w) = (Some s, rest) ->
        s <> "" ->
        inputBox None rest = (d, rest') ->
        Requester_addTemplateRepo connection (Js.trim s) (Js.trim (descriptionOrDefault d))
          (backend w) = (Throw e, b) ->
        snd after
        = emitted (Request (AddTemplateRepo connection (Js.trim s)
                              (Js.trim (descriptionOrDefault d))) false :: addReport e)
            (withBackend b (prompted connection w s d rest')))
  (* what the refresh of a refresh message throws *)
  /\ (forall err,
        type msg = ManageReposWVMessages.REFRESH ->
        fst (refreshPage connection w) = Throw err ->
        snd after = emitted (logged err) (snd (refreshPage connection w)))
  (* what the refresh after a failed enablement throws *)
  /\ (forall e b err,
        type msg = ManageReposWVMessages.ENABLE_DISABLE ->
        Requester_enableTemplateRepos connection (data msg) (backend w) = (Throw e, b) ->
        fst (refreshPage connection (enableFailed b)) = Throw err ->
        snd after = emitted (logged err) (snd (refreshPage connection (enableFailed b))))
  (* what the refresh after a remove throws *)
  /\ (forall b err,
        type msg = ManageReposWVMessages.DELETE ->
        Requester_removeTemplateRepo connection (data msg) (backend w) = (Ok tt, b) ->
        fst (refreshPage connection (removed b)) = Throw err ->
        snd after = emitted (deleteReport err) (snd (refreshPage connection (removed b))))
  (* what the refresh after an add throws *)
  /\ (forall s d rest rest' b err,
        type msg = ManageReposWVMessages.ADD_NEW ->
        inputBox (Some (validateRepoInput newURL)) (answers w) = (Some s, rest) ->
        s <> "" ->
        inputBox None rest = (d, rest') ->
        Requester_addTemplateRepo connection (Js.trim s) (Js.trim (descriptionOrDefault d))
          (backend w) = (Ok tt, b) ->
        fst (refreshPage connection (added s d rest' b)) = Throw err ->
        snd after = emitted (addReport err) (snd (refreshPage connection (added s d rest' b)))).
Proof.
  intros after logged addReport deleteReport deleteStarted enableFailed removed added.
  subst after.
  destruct (handle_frame connection msg w) as (Hok & Hs & es & Ht & Hr).
  split; [exact Hok|]. split; [exact Hs|].
  split; [rewrite Ht, drop_app_length; exact Hr|].
  split; [intros c' msg'; apply handle_frame|].
  split; [intros e b Hty He; exact (handle_enable_failed connection msg w e b Hty He)|].
  split; [|split; [|split; [|split; [|split; [|split]]]]].
  - intros e b Hty He Hrf.
    rewrite (handle_enable_failed connection msg w e b Hty He).
    fold (enableFailed b) in *. unfold settle.
    destruct (refreshPage connection (enableFailed b)) as [[[]|err] w'];
      [reflexivity|discriminate Hrf].
  - intros e b Hty He. rewrite (handle_delete_failed connection msg w e b Hty He). reflexivity.
  - intros s d rest rest' e b Hty Hu Hne Hd He.
    rewrite (handle_add_failed connection msg w s d rest rest' e b Hty Hu Hne Hd He).
    reflexivity.
  - intros err Hty Hrf. rewrite (handle_refresh connection msg w Hty). unfold settle.
    destruct (refreshPage connection w) as [[[]|err'] w']; [discriminate Hrf|].
    injection Hrf as ->. reflexivity.
  - intros e b err Hty He Hrf.
    rewrite (handle_enable_failed connection msg w e b Hty He).
    fold (enableFailed b) in *. unfold settle.
    destruct (refreshPage connection (enableFailed b)) as [[[]|err'] w'];
      [discriminate Hrf|].
    injection Hrf as ->. reflexivity.
  - intros b err Hty He Hrf.
    rewrite (handle_delete_ok connection msg w b Hty He).
    fold deleteStarted. fold (removed b) in *. unfold settle.
    destruct (refreshPage connection (removed b)) as [[[]|err'] w']; [discriminate Hrf|].
    injection Hrf as ->. reflexivity.
  - intros s d rest rest' b err Hty Hu Hne Hd He Hrf.
    rewrite (handle_add_ok connection msg w s d rest rest' b Hty Hu Hne Hd He).
    fold (added s d rest' b) in *. unfold settle.
    destruct (refreshPage connection (added s d rest' b)) as [[[]|err'] w'];
      [discriminate Hrf|].
    injection Hrf as ->. reflexivity.
Qed.

(** *** The singleton session *)

Lemma singleSession_sameSession (w w' : World) :
  singleSession w -> sameSession w w' -> singleSession w'.
Proof.
  unfold singleSession. intros Hi (Hp & Hn & Hm). rewrite Hp, Hn.
  destruct (manageReposPage w) as [p|].
  - destruct Hi as (Hlt & panel & Hw & Hd). split; [exact Hlt|].
    rewrite Hw, map_fmap_singleton in Hm.
    apply map_fmap_singleton_inv in Hm as (panel' & Heq & Hw').
    exists panel'. split; [exact Hw'|].
    replace (onDidDispose panel') with (onDidDispose (setHtml "" panel')) by reflexivity.
    rewrite <- Heq. exact Hd.
  - rewrite Hi, fmap_empty in Hm. exact (fmap_empty_inv _ _ Hm).
Qed.

Lemma notAwaited_handle (connection : Connection.t) (msg : IWVMessage) (w : World) :
  notAwaited (handleWebviewMessage connection msg) w = handleWebviewMessage connection msg w.
Proof.
  destruct (handle_frame connection msg w) as (Hok & _).
  unfold notAwaited, tryCatch.
  destruct (handleWebviewMessage connection msg w) as [[[]|e] w']; [reflexivity|discriminate].
Qed.

Lemma forEach_handle_sameSession (msg : IWVMessage) (l : list Connection.t) (w : World) :
  sameSession w (snd (forEach (fun c => handleWebviewMessage c msg) l w)).
Proof.
  revert w. induction l as [|c l IH]; intros w; [apply sameSession_refl|].
  cbn [forEach]. unfold bind. rewrite notAwaited_handle.
  destruct (handle_frame c msg w) as (Hok & Hs & _).
  destruct (handleWebviewMessage c msg w) as [[[]|e] w']; [|discriminate].
  exact (sameSession_trans _ _ _ Hs (IH w')).
Qed.

Lemma forEach_runListener (l : list DisposeListener) (w : World) :
  In ClearManageReposPage l ->
  forEach runListener l w = (Ok tt, withPage None w).
Proof.
  assert (G : forall l w, manageReposPage w = None ->
                          forEach runListener l w = (Ok tt, w)).
  { clear. induction l as [|[] l IH]; intros w Hw; [reflexivity|].
    cbn [forEach]. unfold bind, notAwaited, tryCatch, runListener, writePage.
    rewrite IH by reflexivity. f_equal. apply world_eq; try reflexivity. symmetry. exact Hw. }
  destruct l as [|[] l]; [intros []|intros _].
  cbn [forEach]. unfold bind, notAwaited, tryCatch, runListener, writePage.
  apply G. reflexivity.
Qed.

(** The command while a session is live: the panel is revealed. *)
Lemma command_reveals (connection : Connection.t) (w : World) (p : nat) (panel : WebviewPanel) :
  manageReposPage w = Some p ->
  panels w !! p = Some panel ->
  manageTemplateReposCmd connection w = (Ok tt, emitted [Reveal p] w).
Proof.
  intros Hp Hl. unfold manageTemplateReposCmd, bind, readPage, reveal, onPanel.
  rewrite Hp, Hl. f_equal. apply world_eq; try reflexivity.
  cbn [panels emitted withPanels]. apply insert_id. exact Hl.
Qed.

(** The command while no session is live: a panel is created, and after
    the first refresh the handler of its messages is registered. *)
Lemma command_creates (connection : Connection.t) (w : World) :
  manageReposPage w = None ->
  let refreshed := snd (notAwaited (refreshPage connection) (created w)) in
  manageTemplateReposCmd connection w
  = onPanel (nextPanel w) (addMessageListener connection) [] refreshed.
Proof.
  intros Hp refreshed. subst refreshed.
  unfold manageTemplateReposCmd. unfold bind at 1. unfold readPage at 1. rewrite Hp.
  unfold bind at 1. unfold createWebviewPanel at 1.
  unfold bind at 1. unfold writePage at 1.
  unfold bind at 1. unfold reveal, onPanel at 1.
  cbn [panels withPage]. rewrite lookup_insert_eq.
  unfold bind at 1. unfold onPanel at 1.
  cbn [panels emitted withPanels withPage]. rewrite lookup_insert_eq.
  unfold bind at 1. unfold onPanel at 1.
  cbn [panels emitted withPanels withPage]. rewrite lookup_insert_eq.
  unfold bind at 1.
  match goal with
  | |- context [notAwaited (refreshPage connection) ?w1] =>
      replace w1 with (created w)
  end.
  - destruct (notAwaited (refreshPage connection) (created w)) as [[[]|e] w'] eqn:E;
      [reflexivity|].
    unfold notAwaited, tryCatch, emit in E.
    destruct (refreshPage connection (created w)) as [[[]|e'] w'']; discriminate.
  - unfold created. apply world_eq;
      cbn [manageReposPage panels nextPanel backend answers trace emitted withPanels withPage];
      try reflexivity.
    + rewrite !insert_insert_eq. reflexivity.
    + rewrite !app_nil_r. reflexivity.
Qed.

Lemma notAwaited_refresh_sameSession (connection : Connection.t) (w : World) :
  sameSession w (snd (notAwaited (refreshPage connection) w)).
Proof.
  destruct (refreshPage_frame connection w) as (Hs & _).
  unfold notAwaited, tryCatch, emit.
  destruct (refreshPage connection w) as [[[]|e] w']; exact Hs.
Qed.

Lemma command_creates_session (connection : Connection.t) (w : World) :
  singleSession w ->
  manageReposPage w = None ->
  let after := manageTemplateReposCmd connection w in
  fst after = Ok tt
  /\ manageReposPage (snd after) = Some (nextPanel w)
  /\ nextPanel (snd after) = S (nextPanel w)
  /\ exists panel,
       panels (snd after) = {[nextPanel w := panel]}
       /\ onDidDispose panel = [ClearManageReposPage]
       /\ onDidReceiveMessage panel = [connection].
Proof.
  intros Hi Hp after. subst after. rewrite (command_creates connection w Hp).
  unfold singleSession in Hi. rewrite Hp in Hi.
  destruct (notAwaited_refresh_sameSession connection (created w)) as (Hp' & Hn' & Hm').
  set (w5 := snd (notAwaited (refreshPage connection) (created w))) in *.
  cbn [created manageReposPage nextPanel panels] in Hp', Hn', Hm'.
  rewrite Hi, insert_empty, map_fmap_singleton in Hm'.
  apply map_fmap_singleton_inv in Hm' as (panel & Heq & Hw5).
  unfold onPanel. rewrite Hw5, lookup_singleton_eq.
  cbn [fst snd manageReposPage nextPanel panels emitted withPanels].
  split; [reflexivity|]. split; [exact Hp'|]. split; [exact Hn'|].
  exists (addMessageListener connection panel). split; [apply insert_singleton_eq|].
  destruct panel as [vt ti ic ht dl ml]. cbn in Heq. inversion Heq; subst.
  split; reflexivity.
Qed.

Lemma singleSession_deliver (ev : HostEvent) (w : World) :
  singleSession w -> singleSession (deliver ev w).
Proof.
  intros Hi. destruct ev as [connection|p|p msg]; cbn [deliver].
  - destruct (manageReposPage w) as [p|] eqn:Hp.
    + pose proof Hi as Hi'. unfold singleSession in Hi'. rewrite Hp in Hi'.
      destruct Hi' as (Hlt & panel & Hw & Hd).
      unfold notAwaited, tryCatch.
      rewrite (command_reveals connection w p panel Hp)
        by (rewrite Hw; apply lookup_singleton_eq).
      cbn [snd]. eapply singleSession_sameSession; [exact Hi|]. repeat split.
    + destruct (command_creates_session connection w Hi Hp)
        as (Hok & Hp' & Hn' & panel & Hw & Hd & _).
      unfold notAwaited, tryCatch.
      destruct (manageTemplateReposCmd connection w) as [[[]|e] w']; [|discriminate].
      cbn [fst snd] in *. unfold singleSession. rewrite Hp', Hn'.
      split; [lia|]. exists panel. split; [exact Hw|]. rewrite Hd. left. reflexivity.
  - destruct (panels w !! p) as [panel|] eqn:Hl; [|exact Hi].
    unfold singleSession in Hi.
    destruct (manageReposPage w) as [q|] eqn:Hq.
    + destruct Hi as (Hlt & panel' & Hw & Hd).
      rewrite Hw in Hl. apply lookup_singleton_Some in Hl as [-> ->].
      rewrite (forEach_runListener _ _ Hd). cbn [snd].
      unfold singleSession. cbn [manageReposPage panels withPage withPanels].
      rewrite Hw. apply delete_singleton_eq.
    + rewrite Hi in Hl. rewrite lookup_empty in Hl. discriminate.
  - destruct (panels w !! p) as [panel|] eqn:Hl; [|exact Hi].
    eapply singleSession_sameSession; [exact Hi|]. apply forEach_handle_sameSession.
Qed.

Lemma singleSession_run (evs : list HostEvent) (w : World) :
  singleSession w -> singleSession (run evs w).
Proof.
  revert w. induction evs as [|ev evs IH]; intros w Hi; [exact Hi|].
  cbn [run fold_left]. apply IH, singleSession_deliver, Hi.
Qed.

Lemma singleSession_initial (b : Backend) (user : list (option string)) :
  singleSession (initial b user).
Proof. reflexivity. Qed.

Lemma deliver_command_live (connection : Connection.t) (w : World) (p : nat) :
  singleSession w ->
  manageReposPage w = Some p ->
  deliver (RunCommand connection) w = emitted [Reveal p] w.
Proof.
  intros Hi Hp. unfold singleSession in Hi. rewrite Hp in Hi.
  destruct Hi as (_ & panel & Hw & _).
  cbn [deliver]. unfold notAwaited, tryCatch.
  rewrite (command_reveals connection w p panel Hp) by (rewrite Hw; apply lookup_singleton_eq).
  reflexivity.
Qed.

Lemma deliver_command_fresh (connection : Connection.t) (w : World) :
  singleSession w ->
  manageReposPage w = None ->
  let after := deliver (RunCommand connection) w in
  manageReposPage after = Some (nextPanel w)
  /\ exists panel, panels after = {[nextPanel w := panel]}.
Proof.
  intros Hi Hp after. subst after.
  destruct (command_creates_session connection w Hi Hp) as (Hok & Hp' & _ & panel & Hw & _).
  cbn [deliver]. unfold notAwaited, tryCatch.
  destruct (manageTemplateReposCmd connection w) as [[[]|e] w']; [|discriminate].
  split; [exact Hp'|]. exists panel. exact Hw.
Qed.

(** C1. After any sequence of events of the host (runs of the command,
    panels closed, messages posted), the host has at most one panel of the
    module, and it has one exactly when the module's reference points to
    it.  Running the command while the reference is set reveals that panel
    and does nothing else.  Closing the panel clears the reference, and the
    next run of the command creates a panel with a new handle, which is
    then the one session. *)
Theorem singleton_panel_session (b : Backend) (user : list (option string))
    (evs : list HostEvent) :
  let w := run evs (initial b user) in
  size (panels w) <= 1
  /\ (forall p, is_Some (panels w !! p) <-> manageReposPage w = Some p)
  /\ (forall p connection,
        manageReposPage w = Some p ->
        deliver (RunCommand connection) w = emitted [Reveal p] w)
  /\ (forall p connection,
        manageReposPage w = Some p ->
        let closed := deliver (ClosePanel p) w in
        let reopened := deliver (RunCommand connection) closed in
        manageReposPage closed = None
        /\ panels closed = ∅
        /\ manageReposPage reopened = Some (nextPanel closed)
        /\ p < nextPanel closed
        /\ size (panels reopened) = 1
        /\ is_Some (panels reopened !! nextPanel closed))
  /\ (forall connection,
        manageReposPage w = None ->
        panels w = ∅
        /\ manageReposPage (deliver (RunCommand connection) w) = Some (nextPanel w)).
Proof.
  intros w.
  assert (Hi : singleSession w) by apply singleSession_run, singleSession_initial.
  clearbody w. split; [|split; [|split; [|split]]].
  - unfold singleSession in Hi. destruct (manageReposPage w) as [p|].
    + destruct Hi as (_ & panel & -> & _). rewrite map_size_singleton. lia.
    + rewrite Hi, map_size_empty. lia.
  - intros p. unfold singleSession in Hi. destruct (manageReposPage w) as [q|].
    + destruct Hi as (_ & panel & -> & _). rewrite lookup_singleton_is_Some.
      split; [intros ->; reflexivity|intros [= ->]; reflexivity].
    + rewrite Hi, lookup_empty. split; [intros [x Hx]; discriminate|discriminate].
  - intros p connection Hp. exact (deliver_command_live connection w p Hi Hp).
  - intros p connection Hp closed reopened.
    assert (Hc : singleSession closed) by apply singleSession_deliver, Hi.
    assert (Hclosed : manageReposPage closed = None /\ panels closed = ∅
                      /\ nextPanel closed = nextPanel w).
    { subst closed. unfold singleSession in Hi. rewrite Hp in Hi.
      destruct Hi as (_ & panel & Hw & Hd). cbn [deliver].
      rewrite Hw, lookup_singleton_eq, (forEach_runListener _ _ Hd).
      cbn [snd manageReposPage panels nextPanel withPage withPanels].
      rewrite delete_singleton_eq. repeat split. }
    destruct Hclosed as (Hpc & Hwc & Hnc).
    destruct (deliver_command_fresh connection closed Hc Hpc) as (Hpr & panel & Hwr).
    fold reopened in Hpr, Hwr.
    split; [exact Hpc|]. split; [exact Hwc|]. split; [exact Hpr|].
    split; [|split].
    + rewrite Hnc. unfold singleSession in Hi. rewrite Hp in Hi. apply Hi.
    + rewrite Hwr. apply map_size_singleton.
    + rewrite Hwr, lookup_singleton_eq. eexists. reflexivity.
  - intros connection Hp. split.
    + unfold singleSession in Hi. rewrite Hp in Hi. exact Hi.
    + apply (deliver_command_fresh connection w Hi Hp).
Qed.

(** *** More on [refreshPage] *)

(** X4. A refresh that fetches the list replaces what the panel of the
    session displays in full: the new content is the rendering of the list
    whatever was displayed before, the other panels and the other fields of
    the panel stay, and the backend is as the fetch left it. *)
Theorem refreshPage_replaces_content (connection : Connection.t) (w : World) (p : nat)
    (panel : WebviewPanel) (l : list IRawTemplateRepo.t) (b : Backend) :
  manageReposPage w = Some p ->
  panels w !! p = Some panel ->
  Requester_get (resolveTemplateReposEndpoint connection) (backend w) = (Ok l, b) ->
  let shown := <[p := setHtml (generateManageReposHtml l) panel]> (panels w) in
  fst (refreshPage connection w) = Ok tt
  /\ panels (snd (refreshPage connection w)) = shown
  /\ backend (snd (refreshPage connection w)) = b
  /\ forall before,
       panels (snd (refreshPage connection
                      (withPanels (<[p := setHtml before panel]> (panels w)) w)))
       = shown.
Proof.
  intros Hp Hl Hg shown. subst shown.
  rewrite (refreshPage_fetched connection w p l b Hp Hg), Hl.
  cbn [fst snd panels backend withPanels emitted withBackend].
  repeat split. intros before.
  rewrite (refreshPage_fetched connection
             (withPanels (<[p := setHtml before panel]> (panels w)) w) p l b Hp Hg).
  cbn [panels withPanels]. rewrite lookup_insert_eq.
  cbn [snd panels withPanels]. rewrite insert_insert_eq. reflexivity.
Qed.

(** X5. When the list fetch of a refresh fails, the refresh throws the
    error of the fetch; what the panels display stays, and nothing is
    logged or shown by the refresh itself. *)
Theorem refreshPage_fetch_failure (connection : Connection.t) (w : World) (p : nat)
    (e : JsError) (b : Backend) :
  manageReposPage w = Some p ->
  Requester_get (resolveTemplateReposEndpoint connection) (backend w) = (Throw e, b) ->
  fst (refreshPage connection w) = Throw e
  /\ panels (snd (refreshPage connection w)) = panels w
  /\ manageReposPage (snd (refreshPage connection w)) = Some p
  /\ trace (snd (refreshPage connection w))
     = (trace w ++ [Request (Get (resolveTemplateReposEndpoint connection)) false])%list.
Proof.
  intros Hp Hg. rewrite (refreshPage_fetch_failed connection w p e b Hp Hg).
  cbn [fst snd panels manageReposPage trace emitted withBackend]. rewrite Hp. repeat split.
Qed.

(** X6. A refresh is idempotent when the fetch is repeatable: if the fetch
    gives the same list again on the backend it has left, a second refresh
    changes neither the panels nor the backend. *)
Theorem refreshPage_idempotent (connection : Connection.t) (w : World) (p : nat)
    (panel : WebviewPanel) (l : list IRawTemplateRepo.t) (b : Backend) :
  manageReposPage w = Some p ->
  panels w !! p = Some panel ->
  Requester_get (resolveTemplateReposEndpoint connection) (backend w) = (Ok l, b) ->
  Requester_get (resolveTemplateReposEndpoint connection) b = (Ok l, b) ->
  let once := snd (refreshPage connection w) in
  let twice := snd (refreshPage connection once) in
  fst (refreshPage connection once) = Ok tt
  /\ panels twice = panels once
  /\ backend twice = backend once
  /\ manageReposPage twice = manageReposPage once.
Proof.
  intros Hp Hl Hg Hg' once twice. subst twice once.
  rewrite (refreshPage_fetched connection w p l b Hp Hg), Hl. cbn [snd].
  match goal with
  | |- context [refreshPage connection ?w1] =>
      rewrite (refreshPage_fetched connection w1 p l b Hp Hg')
  end.
  cbn [panels withPanels emitted withBackend]. rewrite lookup_insert_eq.
  cbn [fst snd panels backend manageReposPage withPanels emitted withBackend].
  repeat split. rewrite insert_insert_eq. reflexivity.
Qed.

(** The calls of the backend in a refresh: none, or one list fetch at the
    endpoint of the connection. *)
Lemma refreshPage_calls (connection : Connection.t) (w : World) :
  exists es,
    trace (snd (refreshPage connection w)) = (trace w ++ es)%list
    /\ (requests es = []
        \/ exists ok, requests es = [Request (Get (resolveTemplateReposEndpoint connection)) ok]).
Proof.
  assert (D : forall h, requests (debugDump h) = []).
  { intros h. unfold debugDump. destruct cwEnvDev; reflexivity. }
  destruct (manageReposPage w) as [p|] eqn:Hp.
  - destruct (Requester_get (resolveTemplateReposEndpoint connection) (backend w))
      as [[l|e] b] eqn:Hg.
    + rewrite (refreshPage_fetched connection w p l b Hp Hg).
      eexists. split.
      * destruct (panels w !! p); cbn [snd trace emitted withPanels withBackend]; reflexivity.
      * right. exists true. unfold requests in *. cbn [List.filter isRequest].
        rewrite D. reflexivity.
    + rewrite (refreshPage_fetch_failed connection w p e b Hp Hg).
      eexists. split; [reflexivity|]. right. exists false. reflexivity.
  - rewrite (refreshPage_absent connection w Hp).
    eexists. split; [reflexivity|]. left. reflexivity.
Qed.

(** *** More on the message handler *)

(** X7. An enablement that succeeds is not followed by a refresh: the one
    call of the backend is the enablement, and the panels display what they
    displayed before. *)
Theorem enable_success_no_refresh (connection : Connection.t) (msg : IWVMessage) (w : World)
    (b : Backend) :
  type msg = ManageReposWVMessages.ENABLE_DISABLE ->
  Requester_enableTemplateRepos connection (data msg) (backend w) = (Ok tt, b) ->
  let after := handleWebviewMessage connection msg w in
  fst after = Ok tt
  /\ panels (snd after) = panels w
  /\ backend (snd after) = b
  /\ requests (trace (snd after))
     = (requests (trace w) ++ [Request (EnableTemplateRepos connection (data msg)) true])%list.
Proof.
  intros Ht Hr after. subst after. rewrite (handle_enable_ok connection msg w b Ht Hr).
  cbn [fst snd panels backend trace emitted withBackend]. repeat split. count_requests.
Qed.

Lemma after_settle_calls (caught : JsError -> list Effect) (connection : Connection.t)
    (w w1 : World) (pre : list Effect) :
  (forall err, requests (caught err) = []) ->
  trace w1 = (trace w ++ pre)%list ->
  exists es tail,
    trace (snd (settle caught (refreshPage connection w1))) = (trace w ++ es)%list
    /\ requests es = (requests pre ++ tail)%list
    /\ (tail = []
        \/ exists ok, tail = [Request (Get (resolveTemplateReposEndpoint connection)) ok]).
Proof.
  intros Hc Ht. destruct (refreshPage_calls connection w1) as (es & He & Hq).
  unfold settle. destruct (refreshPage connection w1) as [[[]|err] w']; cbn [snd] in *.
  - exists (pre ++ es)%list, (requests es). split; [rewrite He, Ht, app_assoc; reflexivity|].
    split; [apply List.filter_app|exact Hq].
  - exists (pre ++ es ++ caught err)%list, (requests es). split.
    + cbn [trace emitted]. rewrite He, Ht, <- !app_assoc. reflexivity.
    + split; [|exact Hq]. unfold requests in *.
      rewrite !List.filter_app, Hc, app_nil_r. reflexivity.
Qed.

(** X8. Handling one message makes at most one mutating call of the backend
    and at most one list fetch, the fetch last and at the endpoint of the
    connection of the handler; the fetch comes after an enablement that
    failed or after an add or a remove that succeeded. *)
Theorem handler_calls (connection : Connection.t) (msg : IWVMessage) (w : World) :
  exists es,
    trace (snd (handleWebviewMessage connection msg w)) = (trace w ++ es)%list
    /\ callShape connection (requests es).
Proof.
  destruct (String.eqb_spec (type msg) ManageReposWVMessages.ENABLE_DISABLE) as [Ht|N1].
  { destruct (Requester_enableTemplateRepos connection (data msg) (backend w))
      as [[[]|e] b] eqn:Hr.
    - rewrite (handle_enable_ok connection msg w b Ht Hr).
      eexists. split; [reflexivity|]. right. right. exists (EnableTemplateRepos connection (data msg)). exists true.
      split; [reflexivity|]. left. reflexivity.
    - rewrite (handle_enable_failed connection msg w e b Ht Hr).
      destruct (after_settle_calls (unexpected msg) connection w
                  (emitted [Log LevelI "Enable/Disable repos:" [ArgValue (data msg)];
                            Request (EnableTemplateRepos connection (data msg)) false]
                     (withBackend b w))
                  [Log LevelI "Enable/Disable repos:" [ArgValue (data msg)];
                   Request (EnableTemplateRepos connection (data msg)) false]
                  ltac:(reflexivity) eq_refl) as (es & tail & He & Hq & Hs).
      exists es. split; [exact He|]. rewrite Hq. right. right. exists (EnableTemplateRepos connection (data msg)). exists false.
      split; [reflexivity|].
      destruct Hs as [->|[ok ->]]; [left; reflexivity|right; exists ok; split; reflexivity]. }
  destruct (String.eqb_spec (type msg) ManageReposWVMessages.ADD_NEW) as [Ht|N2].
  { destruct (inputBox (Some (validateRepoInput newURL)) (answers w)) as [u rest] eqn:Hu.
    destruct (Js.truthy u) eqn:Hc.
    - destruct u as [s|]; [|discriminate].
      assert (Hs : s <> "") by (intros ->; discriminate).
      destruct (inputBox None rest) as [d rest'] eqn:Hd.
      destruct (Requester_addTemplateRepo connection (Js.trim s)
                  (Js.trim (descriptionOrDefault d)) (backend w)) as [[[]|e] b] eqn:Hr.
      + rewrite (handle_add_ok connection msg w s d rest rest' b Ht Hu Hs Hd Hr).
        assert (Hpre : trace (emitted [Request (AddTemplateRepo connection (Js.trim s)
                                                  (Js.trim (descriptionOrDefault d))) true]
                                (withBackend b (prompted connection w s d rest')))
                       = (trace w
                            ++ [Log LevelD ("Adding new repo to " ++ Connection.url connection) [];
                                InputBox urlPrompt (Some s); InputBox descriptionPrompt d;
                                Request (AddTemplateRepo connection (Js.trim s)
                                           (Js.trim (descriptionOrDefault d))) true])%list).
        { unfold prompted, addStarted. cbn [trace emitted withBackend withAnswers].
          rewrite <- !app_assoc. reflexivity. }
        destruct (after_settle_calls addFailed connection w _ _ ltac:(reflexivity) Hpre)
          as (es & tail & He & Hq & Hsh).
        { exists es. split; [exact He|]. rewrite Hq. right. right.
          exists (AddTemplateRepo connection (Js.trim s) (Js.trim (descriptionOrDefault d))).
          exists true.
          split; [reflexivity|].
          destruct Hsh as [->|[ok ->]]; [left; reflexivity|right; exists ok; split; reflexivity]. }
      + rewrite (handle_add_failed connection msg w s d rest rest' e b Ht Hu Hs Hd Hr).
        eexists. split.
        * unfold prompted, addStarted. cbn [snd trace emitted withBackend withAnswers].
          rewrite <- !app_assoc. reflexivity.
        * right. right.
          exists (AddTemplateRepo connection (Js.trim s) (Js.trim (descriptionOrDefault d))).
          exists false. split; [reflexivity|]. left. reflexivity.
    - rewrite (handle_add_cancelled connection msg w u rest Ht Hu Hc).
      eexists. split.
      + unfold addStarted. cbn [snd trace emitted withAnswers]. rewrite <- !app_assoc.
        reflexivity.
      + left. reflexivity. }
  destruct (String.eqb_spec (type msg) ManageReposWVMessages.DELETE) as [Ht|N3].
  { destruct (Requester_removeTemplateRepo connection (data msg) (backend w))
      as [[[]|e] b] eqn:Hr.
    - rewrite (handle_delete_ok connection msg w b Ht Hr).
      destruct (after_settle_calls (deleteFailed (data msg)) connection w
                  (emitted [Log LevelD ("Delete repo " ++ toStr (data msg) ++ " from "
                                          ++ Connection.url connection) [];
                            Request (RemoveTemplateRepo connection (data msg)) true]
                     (withBackend b w))
                  [Log LevelD ("Delete repo " ++ toStr (data msg) ++ " from "
                                 ++ Connection.url connection) [];
                   Request (RemoveTemplateRepo connection (data msg)) true]
                  ltac:(reflexivity) eq_refl) as (es & tail & He & Hq & Hsh).
      exists es. split; [exact He|]. rewrite Hq. right. right. exists (RemoveTemplateRepo connection (data msg)). exists true.
      split; [reflexivity|].
      destruct Hsh as [->|[ok ->]]; [left; reflexivity|right; exists ok; split; reflexivity].
    - rewrite (handle_delete_failed connection msg w e b Ht Hr).
      eexists. split; [reflexivity|].
      right. right. exists (RemoveTemplateRepo connection (data msg)). exists false. split; [reflexivity|]. left. reflexivity. }
  destruct (String.eqb_spec (type msg) ManageReposWVMessages.HELP) as [Ht|N4].
  { rewrite (handle_help connection msg w Ht). eexists. split; [reflexivity|]. left. reflexivity. }
  destruct (String.eqb_spec (type msg) ManageReposWVMessages.REFRESH) as [Ht|N5].
  { rewrite (handle_refresh connection msg w Ht).
    destruct (after_settle_calls (unexpected msg) connection w w []
                ltac:(reflexivity) (eq_sym (app_nil_r _)))
      as (es & tail & He & Hq & Hsh).
    exists es. split; [exact He|]. rewrite Hq.
    destruct Hsh as [->|[ok ->]]; [left; reflexivity|right; left; exists ok; reflexivity]. }
  rewrite (handle_unknown connection msg w (not_member _ N1 N2 N3 N4 N5)).
  eexists. split; [reflexivity|]. left. reflexivity.
Qed.

(** X9. When a remove succeeds and the list fetch of the refresh after it
    fails, the error of the fetch is shown and logged as an error of the
    deletion, the repository is removed from the backend all the same, and
    the panels display what they displayed before. *)
Theorem delete_refresh_failure (connection : Connection.t) (msg : IWVMessage) (w : World)
    (p : nat) (b1 b2 : Backend) (e : JsError) :
  type msg = ManageReposWVMessages.DELETE ->
  manageReposPage w = Some p ->
  Requester_removeTemplateRepo connection (data msg) (backend w) = (Ok tt, b1) ->
  Requester_get (resolveTemplateReposEndpoint connection) b1 = (Throw e, b2) ->
  let after := handleWebviewMessage connection msg w in
  fst after = Ok tt
  /\ trace (snd after)
     = (trace w
          ++ [Log LevelD ("Delete repo " ++ toStr (data msg) ++ " from "
                            ++ Connection.url connection) [];
              Request (RemoveTemplateRepo connection (data msg)) true;
              Request (Get (resolveTemplateReposEndpoint connection)) false;
              ShowErrorMessage ("Error deleting template repository " ++ toStr (data msg) ++ ": "
                                  ++ MCUtil_errToString e) e;
              Log LevelE ("Error removing template repo " ++ toStr (data msg)) [ArgErr e]])%list
  /\ backend (snd after) = b2
  /\ panels (snd after) = panels w.
Proof.
  intros Ht Hp Hr Hg after. subst after.
  rewrite (handle_delete_ok connection msg w b1 Ht Hr).
  match goal with
  | |- context [refreshPage connection ?w1] =>
      rewrite (refreshPage_fetch_failed connection w1 p e b2 Hp Hg)
  end.
  cbn [settle fst snd trace backend panels emitted withBackend deleteFailed].
  rewrite <- !app_assoc. repeat split.
Qed.

(** X10. When an add succeeds and the list fetch of the refresh after it
    fails, the error of the fetch is shown and logged as an error of the
    addition, the repository is in the backend all the same, and the panels
    display what they displayed before. *)
Theorem add_refresh_failure (connection : Connection.t) (msg : IWVMessage) (w : World)
    (p : nat) (s : string) (d : option string) (rest rest' : list (option string))
    (b1 b2 : Backend) (e : JsError) :
  type msg = ManageReposWVMessages.ADD_NEW ->
  manageReposPage w = Some p ->
  inputBox (Some (validateRepoInput newURL)) (answers w) = (Some s, rest) ->
  s <> "" ->
  inputBox None rest = (d, rest') ->
  Requester_addTemplateRepo connection (Js.trim s) (Js.trim (descriptionOrDefault d)) (backend w)
  = (Ok tt, b1) ->
  Requester_get (resolveTemplateReposEndpoint connection) b1 = (Throw e, b2) ->
  let after := handleWebviewMessage connection msg w in
  fst after = Ok tt
  /\ drop (length (trace w) + 3) (trace (snd after))
     = [Request (AddTemplateRepo connection (Js.trim s) (Js.trim (descriptionOrDefault d))) true;
        Request (Get (resolveTemplateReposEndpoint connection)) false;
        ShowErrorMessage ("Error adding new template repository: " ++ MCUtil_errToString e) e;
        Log LevelE "Error adding new template repo [object Object]" [ArgErr e]]
  /\ backend (snd after) = b2
  /\ panels (snd after) = panels w.
Proof.
  intros Ht Hp Hu Hs Hd Hr Hg after. subst after.
  rewrite (handle_add_ok connection msg w s d rest rest' b1 Ht Hu Hs Hd Hr).
  match goal with
  | |- context [refreshPage connection ?w1] =>
      rewrite (refreshPage_fetch_failed connection w1 p e b2 Hp Hg)
  end.
  unfold prompted, addStarted.
  cbn [settle fst snd trace backend panels emitted withBackend withAnswers addFailed].
  repeat split.
  rewrite <- !app_assoc.
  change (trace w ++ _)%list with
    (trace w ++ [Log LevelD ("Adding new repo to " ++ Connection.url connection) [];
                 InputBox urlPrompt (Some s); InputBox descriptionPrompt d]
       ++ [Request (AddTemplateRepo connection (Js.trim s) (Js.trim (descriptionOrDefault d))) true;
           Request (Get (resolveTemplateReposEndpoint connection)) false;
           ShowErrorMessage ("Error adding new template repository: " ++ MCUtil_errToString e) e;
           Log LevelE "Error adding new template repo [object Object]" [ArgErr e]])%list.
  rewrite app_assoc. apply drop_app_length'. rewrite length_app. reflexivity.
Qed.

(** X11. A refresh message whose list fetch fails is answered in the log
    only: two error entries, no notification to the user, and the panels
    display what they displayed before. *)
Theorem refresh_message_failure (connection : Connection.t) (msg : IWVMessage) (w : World)
    (p : nat) (b : Backend) (e : JsError) :
  type msg = ManageReposWVMessages.REFRESH ->
  manageReposPage w = Some p ->
  Requester_get (resolveTemplateReposEndpoint connection) (backend w) = (Throw e, b) ->
  let after := handleWebviewMessage connection msg w in
  fst after = Ok tt
  /\ drop (length (trace w)) (trace (snd after))
     = [Request (Get (resolveTemplateReposEndpoint connection)) false;
        Log LevelE "Error processing message from manage templates webview" [ArgErr e];
        Log LevelE "Message was" [ArgMsg msg]]
  /\ existsb isNotification (drop (length (trace w)) (trace (snd after))) = false
  /\ panels (snd after) = panels w.
Proof.
  intros Ht Hp Hg after. subst after.
  rewrite (handle_refresh connection msg w Ht),
    (refreshPage_fetch_failed connection w p e b Hp Hg).
  cbn [settle fst snd trace panels emitted withBackend unexpected].
  rewrite <- !app_assoc, drop_app_length. repeat split.
Qed.

(** *** More on the prompt *)

(** X12. A description of white space only is not replaced by the default:
    it is trimmed, and the description that is returned is empty. *)
Theorem promptForNewRepo_blank_description (w : World) (s t : string)
    (rest rest' : list (option string)) :
  inputBox (Some (validateRepoInput newURL)) (answers w) = (Some s, rest) ->
  s <> "" ->
  inputBox None rest = (Some t, rest') ->
  t <> "" ->
  Js.allWhite t = true ->
  fst (promptForNewRepo w) = Ok (Some (Js.trim s, "")).
Proof.
  intros Hu Hs Hd Ht Hw.
  rewrite (promptForNewRepo_entered w s (Some t) rest rest' Hu Hs Hd). cbn [fst].
  assert (E : descriptionOrDefault (Some t) = t) by (destruct t; [congruence|reflexivity]).
  rewrite E, (JsFacts.trim_allWhite _ Hw). reflexivity.
Qed.




(** *** More on the session *)

Lemma boundTo_sameSession (connection : Connection.t) (p : nat) (w w' : World) :
  boundTo connection p w -> sameSession w w' -> boundTo connection p w'.
Proof.
  intros (Hp & panel & Hw & Hd & Hm) (Hp' & _ & Hs).
  split; [congruence|].
  rewrite Hw, map_fmap_singleton in Hs.
  apply map_fmap_singleton_inv in Hs as (panel' & Heq & Hw').
  exists panel'. split; [exact Hw'|].
  destruct panel as [vt ti ic ht dl ml], panel' as [vt' ti' ic' ht' dl' ml'].
  cbn in *. inversion Heq; subst. split; reflexivity.
Qed.

Lemma boundTo_deliver (connection : Connection.t) (p : nat) (w : World) (ev : HostEvent) :
  boundTo connection p w -> ev <> ClosePanel p -> boundTo connection p (deliver ev w).
Proof.
  intros Hb Hev. pose proof Hb as (Hp & panel & Hw & Hd & Hm).
  destruct ev as [c|q|q msg]; cbn [deliver].
  - unfold notAwaited, tryCatch.
    rewrite (command_reveals c w p panel Hp) by (rewrite Hw; apply lookup_singleton_eq).
    cbn [snd]. apply (boundTo_sameSession connection p w); [exact Hb|]. repeat split.
  - assert (Hq : p <> q) by congruence.
    rewrite Hw, (lookup_singleton_ne p q panel Hq). exact Hb.
  - destruct (panels w !! q); [|exact Hb].
    apply (boundTo_sameSession connection p w); [exact Hb|]. apply forEach_handle_sameSession.
Qed.

Lemma boundTo_run (connection : Connection.t) (p : nat) (evs : list HostEvent) (w : World) :
  boundTo connection p w ->
  Forall (fun ev => ev <> ClosePanel p) evs ->
  boundTo connection p (run evs w).
Proof.
  revert w. induction evs as [|ev evs IH]; intros w Hb Hf; [exact Hb|].
  inversion Hf as [|? ? Hev Hrest]; subst.
  cbn [run fold_left]. apply IH; [|exact Hrest]. apply boundTo_deliver; assumption.
Qed.

(** X14. Once the command has opened the panel for a connection, the panel
    keeps its one handler of messages, bound to that connection, until the
    panel is closed: later runs of the command, for any connection, and
    messages do not change it. *)
Theorem session_keeps_connection (b : Backend) (user : list (option string))
    (before later : list HostEvent) (connection : Connection.t) :
  let w := run before (initial b user) in
  manageReposPage w = None ->
  Forall (fun ev => ev <> ClosePanel (nextPanel w)) later ->
  boundTo connection (nextPanel w) (run later (deliver (RunCommand connection) w)).
Proof.
  intros w Hp Hf.
  assert (Hi : singleSession w) by apply singleSession_run, singleSession_initial.
  apply boundTo_run; [|exact Hf].
  destruct (command_creates_session connection w Hi Hp)
    as (Hok & Hp' & _ & panel & Hw & Hd & Hm).
  cbn [deliver]. unfold notAwaited, tryCatch.
  destruct (manageTemplateReposCmd connection w) as [[[]|e] w']; [|discriminate].
  split; [exact Hp'|]. exists panel. repeat split; assumption.
Qed.

(** X16. The command that opens the session displays the list it fetches:
    the panel it creates has the title of the page, the logo, the two
    listeners and the rendering of the fetched list. *)
Theorem command_first_display (connection : Connection.t) (w : World)
    (l : list IRawTemplateRepo.t) (b : Backend) :
  manageReposPage w = None ->
  panels w = ∅ ->
  Requester_get (resolveTemplateReposEndpoint connection) (backend w) = (Ok l, b) ->
  let after := deliver (RunCommand connection) w in
  manageReposPage after = Some (nextPanel w)
  /\ panels after = {[nextPanel w := freshPanel connection (generateManageReposHtml l)]}
  /\ backend after = b.
Proof.
  intros Hp Hw Hg after.
  assert (E : after
              = mkWorld (Some (nextPanel w))
                  {[nextPanel w := freshPanel connection (generateManageReposHtml l)]}
                  (S (nextPanel w)) b (answers w)
                  (trace w ++ Reveal (nextPanel w)
                     :: Request (Get (resolveTemplateReposEndpoint connection)) true
                     :: debugDump (generateManageReposHtml l))).
  { subst after. cbn [deliver].
    unfold notAwaited at 1. unfold tryCatch at 1.
    rewrite (command_creates connection w Hp).
    unfold notAwaited, tryCatch.
    rewrite (refreshPage_fetched connection (created w) (nextPanel w) l b eq_refl Hg).
    cbn [created panels]. rewrite lookup_insert_eq. unfold onPanel.
    cbn [snd panels withPanels emitted withBackend]. rewrite lookup_insert_eq. cbn [snd].
    apply world_eq;
      cbn [manageReposPage panels nextPanel backend answers trace emitted withPanels withBackend];
      try reflexivity.
    - rewrite !insert_insert_eq, Hw, insert_empty. reflexivity.
    - unfold created. cbn [trace]. rewrite ?app_nil_r, <- ?app_assoc. reflexivity. }
  rewrite E. repeat split.
Qed.

(** X17. When the list fetch of the command that opens the session fails,
    the session is opened all the same, with an empty panel; the failure is
    left as an unhandled rejection: nothing is logged, nothing is shown. *)
Theorem command_initial_fetch_failure (connection : Connection.t) (w : World)
    (e : JsError) (b : Backend) :
  manageReposPage w = None ->
  panels w = ∅ ->
  Requester_get (resolveTemplateReposEndpoint connection) (backend w) = (Throw e, b) ->
  let after := deliver (RunCommand connection) w in
  manageReposPage after = Some (nextPanel w)
  /\ panels after = {[nextPanel w := freshPanel connection ""]}
  /\ trace after
     = (trace w ++ [Reveal (nextPanel w);
                    Request (Get (resolveTemplateReposEndpoint connection)) false;
                    UnhandledRejection e])%list
  /\ existsb isReport (drop (length (trace w)) (trace after)) = false.
Proof.
  intros Hp Hw Hg after.
  assert (E : after
              = mkWorld (Some (nextPanel w)) {[nextPanel w := freshPanel connection ""]}
                  (S (nextPanel w)) b (answers w)
                  (trace w ++ [Reveal (nextPanel w);
                               Request (Get (resolveTemplateReposEndpoint connection)) false;
                               UnhandledRejection e])).
  { subst after. cbn [deliver].
    unfold notAwaited at 1. unfold tryCatch at 1.
    rewrite (command_creates connection w Hp).
    unfold notAwaited, tryCatch, emit.
    rewrite (refreshPage_fetch_failed connection (created w) (nextPanel w) e b eq_refl Hg).
    unfold onPanel. cbn [created snd panels withPanels emitted withBackend].
    rewrite lookup_insert_eq. cbn [snd].
    apply world_eq;
      cbn [manageReposPage panels nextPanel backend answers trace emitted withPanels withBackend];
      try reflexivity.
    - rewrite !insert_insert_eq, Hw, insert_empty. reflexivity.
    - unfold created. cbn [trace]. rewrite <- !app_assoc. reflexivity. }
  rewrite E. cbn [manageReposPage panels trace]. repeat split.
  rewrite drop_app_length. reflexivity.
Qed.

End ControllerFacts.

(** ** The theorems at work on the sample backend *)

Module Examples.
Import TestBackend Sample.

Lemma refreshPage_without_session_witness :
  manageReposPage (initial (env := env) up []) = None
  /\ fst (refreshPage conn (initial (env := env) up [])) = Ok tt
  /\ trace (snd (refreshPage conn (initial (env := env) up [])))
     = [Log LevelE "Refreshing manage repos page but it doesn't exist" []].
Proof.
  split; [reflexivity|].
  destruct (refreshPage_without_session (env := env) conn (initial (env := env) up []) eq_refl)
    as (A & B & _).
  split; [exact A|exact B].
Defined.

Lemma unknown_message_only_logged_witness :
  ~ In (type strangeMsg) ManageReposWVMessages.values
  /\ backend (snd (handleWebviewMessage conn strangeMsg session)) = backend session
  /\ panels (snd (handleWebviewMessage conn strangeMsg session)) = panels session
  /\ requests (trace (snd (handleWebviewMessage conn strangeMsg session)))
     = requests (trace session).
Proof.
  assert (H : ~ In (type strangeMsg) ManageReposWVMessages.values).
  { intros [H|[H|[H|[H|[H|[]]]]]]; discriminate H. }
  split; [exact H|].
  destruct (unknown_message_only_logged (env := env) conn strangeMsg session H)
    as (_ & A & B & C).
  split; [exact A|]. split; [exact B|exact C].
Defined.

Lemma enable_failure_forces_refresh_witness :
  Requester_enableTemplateRepos (Env := env) conn (data enableMsg) (backend session)
  = (Throw (Error "Unknown repository a"), mk [repoA; repoB_off] true)
  /\ shown session = listOf [repoA; repoB]
  /\ fst (handleWebviewMessage conn enableMsg session) = Ok tt
  /\ shown (snd (handleWebviewMessage conn enableMsg session)) = listOf [repoA; repoB_off].
Proof.
  assert (H : Requester_enableTemplateRepos (Env := env) conn (data enableMsg) (backend session)
              = (Throw (Error "Unknown repository a"), mk [repoA; repoB_off] true))
    by reflexivity.
  split; [exact H|]. split; [reflexivity|].
  destruct (enable_failure_forces_refresh (env := env) conn enableMsg session _ _ eq_refl H)
    as (A & B & _).
  split; [exact A|]. unfold shown. rewrite B. reflexivity.
Defined.

Lemma delete_then_refresh_witness :
  type deleteMsg = ManageReposWVMessages.DELETE
  /\ fst (handleWebviewMessage conn deleteMsg session) = Ok tt
  /\ shown (snd (handleWebviewMessage conn deleteMsg session)) = listOf [repoA]
  /\ backend (snd (handleWebviewMessage conn deleteMsg session)) = mk [repoA] true.
Proof.
  split; [reflexivity|].
  destruct (delete_then_refresh (env := env) conn deleteMsg session eq_refl)
    as (A & _ & _ & B).
  split; [exact A|].
  destruct (B (mk [repoA] true) eq_refl) as (_ & _ & _ & C).
  destruct (C 0 _ [repoA] (mk [repoA] true) eq_refl eq_refl eq_refl) as (D & E).
  split; [|exact E]. unfold shown. rewrite D. reflexivity.
Defined.

Lemma add_new_prompts_then_adds_witness :
  type addMsg = ManageReposWVMessages.ADD_NEW
  /\ inputBox (Some (validateRepoInput UrlParser.parse)) (answers session)
     = (Some " https://example.com/index.json ", [None])
  /\ fst (handleWebviewMessage conn addMsg session) = Ok tt
  /\ requests (trace (snd (handleWebviewMessage conn addMsg session)))
     = (requests (trace session)
          ++ [Request (AddTemplateRepo conn "https://example.com/index.json" "(No description)")
                true;
              Request (Get "http://localhost:9090/api/v1/templates/repositories") true])%list
  /\ shown (snd (handleWebviewMessage conn addMsg session)) = listOf [repoA; repoB; added].
Proof.
  assert (H : inputBox (Some (validateRepoInput UrlParser.parse)) (answers session)
              = (Some " https://example.com/index.json ", [None])) by (vm_compute; reflexivity).
  split; [reflexivity|]. split; [exact H|].
  destruct (add_new_prompts_then_adds (env := env) conn addMsg session _ _ eq_refl H)
    as (A & _ & _ & B).
  split; [exact A|].
  assert (N : " https://example.com/index.json " <> "") by discriminate.
  destruct (B _ None [] eq_refl N eq_refl) as (_ & _ & _ & C).
  destruct (C (mk [repoA; repoB; added] true) eq_refl) as (D & _ & E).
  split; [rewrite E; vm_compute; reflexivity|].
  unfold shown. rewrite D. vm_compute. reflexivity.
Defined.

(** The claim C4 as it is written fails here: the validator accepts the
    URL with the blanks around it, and the add operation is called with the
    trimmed URL and the trimmed description, not with the texts entered. *)
Lemma add_called_with_trimmed_texts :
  ~ addsWhatWasEntered (env := env) conn addMsg (opened up padded).
Proof.
  intros H.
  assert (N1 : " https://example.com/index.json " <> "") by discriminate.
  assert (N2 : " My Templates " <> "") by discriminate.
  destruct (H " https://example.com/index.json " " My Templates " _ []
              ltac:(vm_compute; reflexivity) N1 ltac:(reflexivity) N2) as [ok Hin].
  vm_compute in Hin.
  repeat (destruct Hin as [Hin|Hin]; [discriminate Hin|]).
  exact Hin.
Qed.

Lemma promptForNewRepo_description_witness :
  inputBox (Some (validateRepoInput UrlParser.parse)) (answers session)
  = (Some " https://example.com/index.json ", [None])
  /\ " https://example.com/index.json " <> ""
  /\ inputBox None [None] = (None, [])
  /\ fst (promptForNewRepo session)
     = Ok (Some ("https://example.com/index.json", "(No description)")).
Proof.
  assert (H : inputBox (Some (validateRepoInput UrlParser.parse)) (answers session)
              = (Some " https://example.com/index.json ", [None])) by (vm_compute; reflexivity).
  assert (N : " https://example.com/index.json " <> "") by discriminate.
  split; [exact H|]. split; [exact N|]. split; [reflexivity|].
  destruct (promptForNewRepo_description (env := env) session _ None _ [] H N eq_refl)
    as (u & d & A & B & C & _).
  rewrite A, B, (C (or_introl eq_refl)). vm_compute. reflexivity.
Defined.

(** The claim C5 as it is written fails here: the enablement call fails
    on the unknown repository, the refresh after it succeeds, and nothing
    reports the failure. *)
Lemma enable_failure_not_reported :
  ~ handledAndReported (env := env) conn enableMsg session.
Proof.
  unfold handledAndReported. intros [_ H]. vm_compute in H. discriminate H.
Qed.

Lemma handler_catches_every_failure_witness :
  fst (handleWebviewMessage conn enableMsg session) = Ok tt
  /\ manageReposPage (snd (handleWebviewMessage conn enableMsg session)) = Some 0
  /\ fst (handleWebviewMessage conn deleteMsg
            (snd (handleWebviewMessage conn enableMsg session))) = Ok tt
  /\ fst (refreshPage conn MoreSamples.stale) = Throw (Error "Webview is disposed")
  /\ drop (length (trace MoreSamples.stale))
       (trace (snd (handleWebviewMessage conn MoreSamples.refreshMsg MoreSamples.stale)))
     = [Request (Get "http://localhost:9090/api/v1/templates/repositories") true;
        Log LevelE "Error processing message from manage templates webview"
          [ArgErr (Error "Webview is disposed")];
        Log LevelE "Message was" [ArgMsg MoreSamples.refreshMsg]].
Proof.
  destruct (handler_catches_every_failure (env := env) conn enableMsg session)
    as (A & (B & _) & _ & C & _).
  split; [exact A|]. split; [rewrite B; reflexivity|]. split; [apply C|].
  assert (R : fst (refreshPage conn MoreSamples.stale) = Throw (Error "Webview is disposed"))
    by (vm_compute; reflexivity).
  split; [exact R|].
  destruct (handler_catches_every_failure (env := env) conn MoreSamples.refreshMsg
              MoreSamples.stale) as (_ & _ & _ & _ & _ & _ & _ & _ & D & _).
  rewrite (D _ eq_refl R). vm_compute. reflexivity.
Defined.

Lemma singleton_panel_session_witness :
  manageReposPage (run history (initial (env := env) up user)) = Some 0
  /\ size (panels (run history (initial (env := env) up user))) <= 1
  /\ deliver (RunCommand conn) (run history (initial (env := env) up user))
     = emitted [Reveal 0] (run history (initial (env := env) up user))
  /\ manageReposPage
       (deliver (RunCommand conn)
          (deliver (ClosePanel 0) (run history (initial (env := env) up user))))
     = Some 1.
Proof.
  assert (H : manageReposPage (run history (initial (env := env) up user)) = Some 0)
    by (vm_compute; reflexivity).
  split; [exact H|].
  destruct (singleton_panel_session (env := env) up user history) as (A & _ & B & C & _).
  split; [exact A|]. split; [exact (B 0 conn H)|].
  destruct (C 0 conn H) as (_ & _ & D & _). rewrite D. vm_compute. reflexivity.
Defined.

End Examples.

(** ** More of the theorems at work *)

Module MoreExamples.
Import TestBackend Sample MoreSamples.


Lemma validateRepoInput_accepts_iff_witness :
  exists u,
    UrlParser.parse "https://bitbucket.org/org/repo/raw/master/index.json" = Some u
    /\ Js.includes (pathname u) "raw" = true.
Proof.
  destruct (proj1 (validateRepoInput_accepts_iff UrlParser.parse
                     "https://bitbucket.org/org/repo/raw/master/index.json")
              ltac:(vm_compute; reflexivity)) as (u & A & _ & _ & _ & B & _).
  exists u. split; [exact A|]. apply B.
  vm_compute in A. injection A as <-. reflexivity.
Defined.

Lemma validateRepoInput_github_first_witness :
  UrlParser.parse "https://github.com/org/repo/raw/master/index.json"
  = Some (mkURL "https:" "github.com" "/org/repo/raw/master/index.json")
  /\ validateRepoInput UrlParser.parse "https://github.com/org/repo/raw/master/index.json"
     = Some "For GitHub URLs, you must use the raw link.".
Proof.
  assert (H : UrlParser.parse "https://github.com/org/repo/raw/master/index.json"
              = Some (mkURL "https:" "github.com" "/org/repo/raw/master/index.json"))
    by (vm_compute; reflexivity).
  split; [exact H|].
  exact (validateRepoInput_github_first UrlParser.parse _ _ H eq_refl eq_refl eq_refl).
Defined.

Lemma validateRepoInput_raw_in_path_witness :
  UrlParser.parse "https://gitlab.com/org/repo/-/blob/master/index.json"
  = Some (mkURL "https:" "gitlab.com" "/org/repo/-/blob/master/index.json")
  /\ validateRepoInput UrlParser.parse "https://gitlab.com/org/repo/-/blob/master/index.json"
     <> None.
Proof.
  assert (H : UrlParser.parse "https://gitlab.com/org/repo/-/blob/master/index.json"
              = Some (mkURL "https:" "gitlab.com" "/org/repo/-/blob/master/index.json"))
    by (vm_compute; reflexivity).
  split; [exact H|]. intros N.
  pose proof (proj1 (validateRepoInput_raw_in_path UrlParser.parse _ _ H eq_refl eq_refl
                       (or_intror eq_refl)) N) as R.
  discriminate R.
Defined.

Lemma refreshPage_replaces_content_witness :
  manageReposPage session = Some 0
  /\ panels session !! 0 = Some sessionPanel
  /\ shown (snd (refreshPage conn
                   (withPanels (<[0 := setHtml "stale" sessionPanel]> (panels session)) session)))
     = listOf [repoA; repoB].
Proof.
  assert (H : panels session !! 0 = Some sessionPanel) by (vm_compute; reflexivity).
  split; [reflexivity|]. split; [exact H|].
  destruct (refreshPage_replaces_content (env := env) conn session 0 sessionPanel
              [repoA; repoB] up eq_refl H eq_refl) as (_ & _ & _ & A).
  unfold shown. rewrite (A "stale"). vm_compute. reflexivity.
Defined.

Lemma refreshPage_fetch_failure_witness :
  manageReposPage cutOff = Some 0
  /\ fst (refreshPage conn cutOff) = Throw unreachable
  /\ shown (snd (refreshPage conn cutOff)) = listOf [repoA; repoB].
Proof.
  split; [reflexivity|].
  destruct (refreshPage_fetch_failure (env := env) conn cutOff 0 unreachable down
              eq_refl eq_refl) as (A & B & _).
  split; [exact A|]. unfold shown. rewrite B. vm_compute. reflexivity.
Defined.

Lemma refreshPage_idempotent_witness :
  Requester_get (Env := env) (resolveTemplateReposEndpoint (Env := env) conn) up
  = (Ok [repoA; repoB], up)
  /\ panels (snd (refreshPage conn (snd (refreshPage conn session))))
     = panels (snd (refreshPage conn session)).
Proof.
  split; [reflexivity|].
  assert (H : panels session !! 0 = Some sessionPanel) by (vm_compute; reflexivity).
  destruct (refreshPage_idempotent (env := env) conn session 0 sessionPanel
              [repoA; repoB] up eq_refl H eq_refl eq_refl) as (_ & A & _).
  exact A.
Defined.

Lemma enable_success_no_refresh_witness :
  Requester_enableTemplateRepos (Env := env) conn (data enableOneMsg) (backend session)
  = (Ok tt, mk [repoA; repoB_off] true)
  /\ backend (snd (handleWebviewMessage conn enableOneMsg session)) = mk [repoA; repoB_off] true
  /\ shown (snd (handleWebviewMessage conn enableOneMsg session)) = listOf [repoA; repoB].
Proof.
  split; [reflexivity|].
  destruct (enable_success_no_refresh (env := env) conn enableOneMsg session
              (mk [repoA; repoB_off] true) eq_refl eq_refl) as (_ & A & B & _).
  split; [exact B|]. unfold shown. rewrite A. vm_compute. reflexivity.
Defined.

Lemma handler_calls_witness :
  exists es,
    trace (snd (handleWebviewMessage conn deleteMsg session)) = (trace session ++ es)%list
    /\ callShape (env := env) conn (requests es).
Proof. exact (handler_calls (env := env) conn deleteMsg session). Defined.

Lemma delete_refresh_failure_witness :
  Requester_removeTemplateRepo (Env := FlakyBackend.env) conn (data deleteMsg)
    (backend (FlakyBackend.opened 1 []))
  = (Ok tt, FlakyBackend.mk (mk [repoA] true) 0)
  /\ backend (snd (handleWebviewMessage (env := FlakyBackend.env) conn deleteMsg
                     (FlakyBackend.opened 1 [])))
     = FlakyBackend.mk (mk [repoA] true) 0
  /\ html <$> panels (snd (handleWebviewMessage (env := FlakyBackend.env) conn deleteMsg
                             (FlakyBackend.opened 1 []))) !! 0
     = listOf [repoA; repoB].
Proof.
  split; [reflexivity|].
  destruct (delete_refresh_failure (env := FlakyBackend.env) conn deleteMsg
              (FlakyBackend.opened 1 []) 0 (FlakyBackend.mk (mk [repoA] true) 0)
              (FlakyBackend.mk (mk [repoA] true) 0) unreachable
              eq_refl eq_refl eq_refl eq_refl) as (_ & _ & A & B).
  split; [exact A|]. rewrite B. vm_compute. reflexivity.
Defined.

Lemma add_refresh_failure_witness :
  inputBox (Some (validateRepoInput UrlParser.parse)) (answers (FlakyBackend.opened 1 user))
  = (Some " https://example.com/index.json ", [None])
  /\ backend (snd (handleWebviewMessage (env := FlakyBackend.env) conn addMsg
                     (FlakyBackend.opened 1 user)))
     = FlakyBackend.mk (mk [repoA; repoB; added] true) 0
  /\ html <$> panels (snd (handleWebviewMessage (env := FlakyBackend.env) conn addMsg
                             (FlakyBackend.opened 1 user))) !! 0
     = listOf [repoA; repoB].
Proof.
  assert (H : inputBox (Some (validateRepoInput UrlParser.parse))
                (answers (FlakyBackend.opened 1 user))
              = (Some " https://example.com/index.json ", [None])) by (vm_compute; reflexivity).
  assert (N : " https://example.com/index.json " <> "") by discriminate.
  split; [exact H|].
  destruct (add_refresh_failure (env := FlakyBackend.env) conn addMsg
              (FlakyBackend.opened 1 user) 0 _ None _ []
              (FlakyBackend.mk (mk [repoA; repoB; added] true) 0)
              (FlakyBackend.mk (mk [repoA; repoB; added] true) 0) unreachable
              eq_refl eq_refl H N eq_refl ltac:(vm_compute; reflexivity) eq_refl)
    as (_ & _ & A & B).
  split; [exact A|]. rewrite B. vm_compute. reflexivity.
Defined.

Lemma refresh_message_failure_witness :
  type refreshMsg = ManageReposWVMessages.REFRESH
  /\ fst (handleWebviewMessage conn refreshMsg cutOff) = Ok tt
  /\ shown (snd (handleWebviewMessage conn refreshMsg cutOff)) = listOf [repoA; repoB].
Proof.
  split; [reflexivity|].
  destruct (refresh_message_failure (env := env) conn refreshMsg cutOff 0 down unreachable
              eq_refl eq_refl eq_refl) as (A & _ & _ & B).
  split; [exact A|]. unfold shown. rewrite B. vm_compute. reflexivity.
Defined.

Lemma promptForNewRepo_blank_description_witness :
  Js.allWhite "   " = true
  /\ fst (promptForNewRepo (opened up blanks))
     = Ok (Some ("https://example.com/index.json", "")).
Proof.
  split; [reflexivity|].
  assert (N1 : "https://example.com/index.json" <> "") by discriminate.
  assert (N2 : "   " <> "") by discriminate.
  rewrite (promptForNewRepo_blank_description (env := env) (opened up blanks)
             "https://example.com/index.json" "   " [Some "   "] []
             ltac:(vm_compute; reflexivity) N1 eq_refl N2 eq_refl).
  vm_compute. reflexivity.
Defined.


Lemma session_keeps_connection_witness :
  Forall (fun ev => ev <> ClosePanel 0) [RunCommand other; PostMessage 0 deleteMsg]
  /\ boundTo (env := env) conn 0
       (run [RunCommand other; PostMessage 0 deleteMsg]
          (deliver (RunCommand conn) (initial (env := env) up user))).
Proof.
  assert (F : Forall (fun ev : HostEvent => ev <> ClosePanel 0)
                [RunCommand other; PostMessage 0 deleteMsg])
    by (repeat constructor; discriminate).
  split; [exact F|].
  exact (session_keeps_connection (env := env) up user [] _ conn eq_refl F).
Defined.

Lemma command_first_display_witness :
  Requester_get (Env := env) (resolveTemplateReposEndpoint (Env := env) conn) up
  = (Ok [repoA; repoB], up)
  /\ panels (deliver (RunCommand conn) (initial (env := env) up []))
     = {[0 := freshPanel (env := env) conn (render [repoA; repoB])]}.
Proof.
  split; [reflexivity|].
  destruct (command_first_display (env := env) conn (initial (env := env) up [])
              [repoA; repoB] up eq_refl eq_refl eq_refl) as (_ & A & _).
  exact A.
Defined.

Lemma command_initial_fetch_failure_witness :
  Requester_get (Env := env) (resolveTemplateReposEndpoint (Env := env) conn) down
  = (Throw unreachable, down)
  /\ manageReposPage (deliver (RunCommand conn) (initial (env := env) down [])) = Some 0
  /\ panels (deliver (RunCommand conn) (initial (env := env) down []))
     = {[0 := freshPanel (env := env) conn ""]}.
Proof.
  split; [reflexivity|].
  destruct (command_initial_fetch_failure (env := env) conn (initial (env := env) down [])
              unreachable down eq_refl eq_refl eq_refl) as (A & B & _).
  split; [exact A|exact B].
Defined.

End MoreExamples.
